(** * Jira agile-metrics dashboard: ingestion, filters and headline metrics

    A shallow embedding of [dashboard_interativo.py].  The script is one
    linear pass: [load_data] parses an uploaded delimited file and derives
    two columns, the sidebar widgets select a date range, a status set and
    a category set, the filters narrow the table, and the headline metrics,
    the cumulative-flow series and the export are computed from the
    narrowed table.

    Conventions of the embedding:
    - a DataFrame is the list of its rows, in index order; a column is the
      [map] of a field over that list; a boolean mask is a [list bool];
    - an object cell is text or the missing value ([Str]/[NaN]);
    - a datetime64 cell is [option Z]: seconds since 1970-01-01 00:00, with
      [None] for NaT (the format has minute resolution, so every parsed
      value is a multiple of 60);
    - the lead-time column is float64: a row keeps the double the column
      stores ([Lead_Time_Double], a primitive binary64 float, NaN for a
      missing value) and beside it the exact quotient that the double
      rounds ([Lead_Time_Days], [option Q] with [None] for NaN), which the
      statements on order, sign and bounds use; the ratios of the headline
      cards are exact rationals;
    - a Python exception is the left summand of [result]. *)

From Stdlib Require Import List String Ascii Bool Arith ZArith QArith Lia.
From Stdlib Require Import Permutation Sorted OrderedTypeEx.
From Stdlib Require Floats Uint63.
Import ListNotations.

Local Open Scope string_scope.
Local Open Scope Z_scope.

(* ================================================================== *)
(** ** Exceptions *)

Inductive exn : Type :=
| ValueError          (* NaTType does not support timetuple *)
| ZeroDivisionError.  (* division by zero *)

Definition result (A : Type) : Type := (exn + A)%type.

Definition ok {A} (a : A) : result A := inr a.
Definition raise {A} (e : exn) : result A := inl e.

Definition bind {A B} (m : result A) (k : A -> result B) : result B :=
  match m with
  | inl e => inl e
  | inr a => k a
  end.

Notation "x <- m ;; k" := (bind m (fun x => k))
  (at level 61, m at next level, right associativity).

(* ================================================================== *)
(** ** Text *)

Module Text.

(** [p] is a prefix of [s]. *)
Fixpoint startswith (p s : string) : bool :=
  match p, s with
  | EmptyString, _ => true
  | String a p', String b s' => Ascii.eqb a b && startswith p' s'
  | String _ _, EmptyString => false
  end.

(** Python's [sub in s] on strings. *)
Fixpoint contains (sub s : string) : bool :=
  startswith sub s ||
  match s with
  | EmptyString => false
  | String _ s' => contains sub s'
  end.

Definition is_digit (c : ascii) : bool :=
  let n := nat_of_ascii c in (48 <=? n)%nat && (n <=? 57)%nat.

Definition digit_val (c : ascii) : Z := Z.of_nat (nat_of_ascii c) - 48.

(** The one-byte members of the regular-expression class [\s]: tab to
    carriage return, the four separators 28-31, and the space. *)
Definition is_space (c : ascii) : bool :=
  let n := nat_of_ascii c in
  ((9 <=? n)%nat && (n <=? 13)%nat) || ((28 <=? n)%nat && (n <=? 32)%nat).

Definition lower (c : ascii) : ascii :=
  let n := nat_of_ascii c in
  if (65 <=? n)%nat && (n <=? 90)%nat then ascii_of_nat (n + 32) else c.

Fixpoint lower_all (l : list ascii) : list ascii :=
  match l with
  | [] => []
  | c :: l' => lower c :: lower_all l'
  end.

(** Split at the first occurrence of [sep]; [None] when it is absent. *)
Fixpoint break_at (sep : ascii) (l : list ascii) : option (list ascii * list ascii) :=
  match l with
  | [] => None
  | c :: l' =>
      if Ascii.eqb c sep then Some ([], l')
      else match break_at sep l' with
           | Some (tok, rest) => Some (c :: tok, rest)
           | None => None
           end
  end.

Fixpoint drop_spaces (l : list ascii) : list ascii :=
  match l with
  | c :: l' => if is_space c then drop_spaces l' else l
  | [] => []
  end.

Definition digit_char (d : Z) : ascii := ascii_of_nat (Z.to_nat (48 + d mod 10)).

(** Zero-padded decimal rendering of fixed width. *)
Fixpoint pad_digits (width : nat) (n : Z) (acc : string) : string :=
  match width with
  | O => acc
  | S w => pad_digits w (n / 10) (String (digit_char n) acc)
  end.

End Text.

(* ================================================================== *)
(** ** Calendar arithmetic (proleptic Gregorian, as [datetime]) *)

Module Calendar.

Definition is_leap (y : Z) : bool :=
  (y mod 4 =? 0) && (negb (y mod 100 =? 0) || (y mod 400 =? 0)).

Definition days_in_month (y m : Z) : Z :=
  match m with
  | 2 => if is_leap y then 29 else 28
  | 4 | 6 | 9 | 11 => 30
  | _ => 31
  end.

Definition days_before_month (y m : Z) : Z :=
  match m with
  | 1 => 0 | 2 => 31 | 3 => 59 | 4 => 90 | 5 => 120 | 6 => 151
  | 7 => 181 | 8 => 212 | 9 => 243 | 10 => 273 | 11 => 304 | _ => 334
  end + (if (2 <? m) && is_leap y then 1 else 0).

Definition days_before_year (y : Z) : Z :=
  let p := y - 1 in p * 365 + p / 4 - p / 100 + p / 400.

(** Day number of a civil date, counted from 1970-01-01 = 0. *)
Definition days_from_civil (y m d : Z) : Z :=
  days_before_year y + days_before_month y m + d - 719163.

(** Inverse of [days_from_civil]: (year, month, day) of a day number. *)
Definition civil_from_days (n : Z) : Z * Z * Z :=
  let z := n + 719468 in
  let era := z / 146097 in
  let doe := z - era * 146097 in
  let yoe := (doe - doe / 1460 + doe / 36524 - doe / 146096) / 365 in
  let doy := doe - (365 * yoe + yoe / 4 - yoe / 100) in
  let mp := (5 * doy + 2) / 153 in
  let d := doy - (153 * mp + 2) / 5 + 1 in
  let m := if mp <? 10 then mp + 3 else mp - 9 in
  let y := yoe + era * 400 + (if m <=? 2 then 1 else 0) in
  (y, m, d).

(** [Timestamp.date()] and [Series.dt.date]: the day of a timestamp,
    the time of day discarded. *)
Definition date_of (t : Z) : Z := t / 86400.

End Calendar.


(* ================================================================== *)
(** ** [pd.to_datetime(..., format='%d/%b/%y %H:%M', errors='coerce')] *)

Module Strptime.
Import Text Calendar.

Local Open Scope char_scope.

(** [%d] : [3[0-1]|[1-2]\d|0[1-9]|[1-9]| [1-9]]. *)
Definition parse_day (tok : list ascii) : option Z :=
  match tok with
  | [a] => if is_digit a && negb (Ascii.eqb a "0") then Some (digit_val a) else None
  | [a; b] =>
      if Ascii.eqb a " " then
        if is_digit b && negb (Ascii.eqb b "0") then Some (digit_val b) else None
      else if is_digit a && is_digit b then
        let v := 10 * digit_val a + digit_val b in
        if (1 <=? v)%Z && (v <=? 31)%Z then Some v else None
      else None
  | _ => None
  end.

(** [%b] : the English abbreviations, letter case ignored. *)
Definition parse_month (tok : list ascii) : option Z :=
  match lower_all tok with
  | ["j"; "a"; "n"] => Some 1%Z
  | ["f"; "e"; "b"] => Some 2%Z
  | ["m"; "a"; "r"] => Some 3%Z
  | ["a"; "p"; "r"] => Some 4%Z
  | ["m"; "a"; "y"] => Some 5%Z
  | ["j"; "u"; "n"] => Some 6%Z
  | ["j"; "u"; "l"] => Some 7%Z
  | ["a"; "u"; "g"] => Some 8%Z
  | ["s"; "e"; "p"] => Some 9%Z
  | ["o"; "c"; "t"] => Some 10%Z
  | ["n"; "o"; "v"] => Some 11%Z
  | ["d"; "e"; "c"] => Some 12%Z
  | _ => None
  end.

(** [%y] : [\d\d], with the POSIX pivot: 00-68 are 20xx, 69-99 are 19xx. *)
Definition parse_year (a b : ascii) : option Z :=
  if is_digit a && is_digit b then
    let v := (10 * digit_val a + digit_val b)%Z in
    Some (if (v <=? 68)%Z then 2000 + v else 1900 + v)%Z
  else None.

(** One or two digits below [bound]: [%H] is [2[0-3]|[0-1]\d|\d] with
    bound 24, [%M] is [[0-5]\d|\d] with bound 60. *)
Definition parse_upto (bound : Z) (tok : list ascii) : option Z :=
  match tok with
  | [a] => if is_digit a then Some (digit_val a) else None
  | [a; b] =>
      if is_digit a && is_digit b then
        let v := (10 * digit_val a + digit_val b)%Z in
        if (v <? bound)%Z then Some v else None
      else None
  | _ => None
  end.

(** The whole value must match [%d/%b/%y\s+%H:%M]; the day must exist in
    its month.  The result is in seconds since the epoch.  Only one-byte
    digits and spaces are read here; the digits and spaces of other
    scripts, which the library's [\d] and [\s] match as well, make the
    text unparsable in this model. *)
Definition strptime (s : string) : option Z :=
  match break_at "/" (list_ascii_of_string s) with
  | None => None
  | Some (dtok, r1) =>
  match break_at "/" r1 with
  | None => None
  | Some (mtok, r2) =>
  match r2 with
  | y1 :: y2 :: sp :: r3 =>
      if negb (is_space sp) then None else
      match break_at ":" (drop_spaces r3) with
      | None => None
      | Some (htok, mintok) =>
          match parse_day dtok, parse_month mtok, parse_year y1 y2,
                parse_upto 24 htok, parse_upto 60 mintok with
          | Some d, Some m, Some y, Some h, Some mi =>
              if (d <=? days_in_month y m)%Z
              then Some (days_from_civil y m d * 86400 + h * 3600 + mi * 60)%Z
              else None
          | _, _, _, _, _ => None
          end
      end
  | _ => None
  end end end.

(** [str(Timestamp)] for a value without sub-second part, as [to_csv]
    writes a datetime64 cell: [YYYY-MM-DD HH:MM:SS]. *)
Definition isoformat (t : Z) : string :=
  let '(y, m, d) := civil_from_days (date_of t) in
  let s := (t mod 86400)%Z in
  (pad_digits 4 y "" ++ "-" ++ pad_digits 2 m "" ++ "-" ++ pad_digits 2 d "" ++ " " ++
   pad_digits 2 (s / 3600) "" ++ ":" ++ pad_digits 2 (s / 60 mod 60) "" ++ ":" ++
   pad_digits 2 (s mod 60) "")%string.

(** [str(Period)] at monthly frequency: [YYYY-MM]. *)
Definition month_label (t : Z) : string :=
  let '(y, m, _) := civil_from_days (date_of t) in
  (pad_digits 4 y "" ++ "-" ++ pad_digits 2 m "")%string.

End Strptime.

(* ================================================================== *)
(** ** DataFrame primitives *)

Module Frame.

(** An object cell: text, or the missing value.  A column that the
    reader types as numbers or booleans is kept here as the text of its
    cells; no such text equals a literal the script compares with. *)
Inductive cell : Type :=
| Str (s : string)
| NaN.

(** [str(x)] *)
Definition py_str (x : cell) : string :=
  match x with
  | Str s => s
  | NaN => "nan"
  end.

(** [x == 'literal'] : the missing value equals no string. *)
Definition eq_str (x : cell) (s : string) : bool :=
  match x with
  | Str t => String.eqb t s
  | NaN => false
  end.

(** Cell equality as [Series.isin] and [in] on option lists see it: the
    missing value matches the missing value. *)
Definition cell_eqb (x y : cell) : bool :=
  match x, y with
  | Str s, Str t => String.eqb s t
  | NaN, NaN => true
  | _, _ => false
  end.

(** [series.isin(values)], one element. *)
Definition isin (values : list cell) (x : cell) : bool :=
  existsb (cell_eqb x) values.

(** [series.notna()], one element. *)
Definition notna {A} (x : option A) : bool :=
  match x with
  | Some _ => true
  | None => false
  end.

(** [df[mask]] : boolean indexing keeps the rows whose mask entry is True,
    in order. *)
Fixpoint select {A} (mask : list bool) (df : list A) : list A :=
  match mask, df with
  | b :: mask', r :: df' => if b then r :: select mask' df' else select mask' df'
  | _, _ => []
  end.

(** [m1 & m2] on masks. *)
Fixpoint mask_and (m1 m2 : list bool) : list bool :=
  match m1, m2 with
  | a :: m1', b :: m2' => (a && b) :: mask_and m1' m2'
  | _, _ => []
  end.

(** [~m] on a mask. *)
Definition mask_not (m : list bool) : list bool := map negb m.

(** [series >= d] and [series <= d] on a column of dates: a missing
    element compares False. *)
Definition ge_date (d : Z) (x : option Z) : bool :=
  match x with
  | Some v => (d <=? v)%Z
  | None => false
  end.

Definition le_date (d : Z) (x : option Z) : bool :=
  match x with
  | Some v => (v <=? d)%Z
  | None => false
  end.

(** [series.min()] and [series.max()] of a datetime column: missing values
    are skipped, and the result is NaT when nothing is left. *)
Fixpoint series_min (col : list (option Z)) : option Z :=
  match col with
  | [] => None
  | None :: col' => series_min col'
  | Some v :: col' =>
      match series_min col' with
      | Some w => Some (Z.min v w)
      | None => Some v
      end
  end.

Fixpoint series_max (col : list (option Z)) : option Z :=
  match col with
  | [] => None
  | None :: col' => series_max col'
  | Some v :: col' =>
      match series_max col' with
      | Some w => Some (Z.max v w)
      | None => Some v
      end
  end.

(** [series.cumsum()] of a boolean column. *)
Fixpoint cumsum_from (acc : nat) (col : list bool) : list nat :=
  match col with
  | [] => []
  | b :: col' =>
      let acc' := (acc + if b then 1 else 0)%nat in
      acc' :: cumsum_from acc' col'
  end.

Definition cumsum (col : list bool) : list nat := cumsum_from 0 col.

(** The values of a float column that are not NaN. *)
Fixpoint dropna (col : list (option Q)) : list Q :=
  match col with
  | [] => []
  | Some q :: col' => q :: dropna col'
  | None :: col' => dropna col'
  end.

Fixpoint insert_sorted (q : Q) (l : list Q) : list Q :=
  match l with
  | [] => [q]
  | x :: l' => if Qle_bool q x then q :: l else x :: insert_sorted q l'
  end.

Definition sort_values_float (l : list Q) : list Q :=
  fold_right insert_sorted [] l.

(** [series.median()] : NaN is skipped; the middle value, or the mean of
    the two middle values; NaN when every value is missing. *)
Definition median (col : list (option Q)) : option Q :=
  let v := sort_values_float (dropna col) in
  let n := List.length v in
  match n with
  | O => None
  | _ =>
      if Nat.even n
      then Some ((nth (n / 2 - 1) v 0 + nth (n / 2) v 0) / 2)%Q
      else Some (nth (n / 2) v 0%Q)
  end.

End Frame.

(* ================================================================== *)
(** ** The table: columns of the Jira export *)

Module Table.
Import Frame.

(** One row under the header names the script reads.  [T] is the type of
    the text columns and [D] of the three date columns; [Others] holds any
    further column of the file, by header name. *)
Record columns (T D : Type) : Type := mk_columns {
  Issue_key : T;
  Summary : T;
  Issue_Type : T;
  Status : T;
  Priority : T;
  Assignee : T;
  Created : D;
  Updated : D;
  Resolved : D;
  Others : list (string * T)
}.

Arguments mk_columns {T D}.
Arguments Issue_key {T D}.
Arguments Summary {T D}.
Arguments Issue_Type {T D}.
Arguments Status {T D}.
Arguments Priority {T D}.
Arguments Assignee {T D}.
Arguments Created {T D}.
Arguments Updated {T D}.
Arguments Resolved {T D}.
Arguments Others {T D}.

Definition map_columns {T D T' D'} (f : T -> T') (g : D -> D')
  (c : columns T D) : columns T' D' :=
  {| Issue_key := f (Issue_key c);
     Summary := f (Summary c);
     Issue_Type := f (Issue_Type c);
     Status := f (Status c);
     Priority := f (Priority c);
     Assignee := f (Assignee c);
     Created := g (Created c);
     Updated := g (Updated c);
     Resolved := g (Resolved c);
     Others := map (fun p => (fst p, f (snd p))) (Others c) |}.

(** A record of the delimited file: the text of each field. *)
Definition csv_row : Type := columns string string.

(** A row as [read_csv] returns it. *)
Definition raw_row : Type := columns cell cell.

(** A row once the three date columns are datetime64. *)
Definition issue : Type := columns cell (option Z).

(** A row of [df]: the issue and its derived category. *)
Record row : Type := mk_row {
  fields : issue;
  Categoria : string
}.

(** A row of [resolved_df]: the issue and its lead time, as the exact
    quotient and as the float64 that the column stores. *)
Record resolved_row : Type := mk_resolved {
  rfields : issue;
  Lead_Time_Days : option Q;
  Lead_Time_Double : PrimFloat.float
}.

(** [df[name] = ...] replaces a column of that name; in [Others] that is
    the removal of the old one. *)
Definition drop_column {T} (name : string) (others : list (string * T)) :
  list (string * T) :=
  filter (fun p => negb (String.eqb (fst p) name)) others.

End Table.

(* ================================================================== *)
(** ** Ingestion and derivation: [load_data] *)

Module Ingest.
Import Text Frame Table.

(** The strings [read_csv] reads as the missing value by default. *)
Definition na_values : list string :=
  [""; "#N/A"; "#N/A N/A"; "#NA"; "-1.#IND"; "-1.#QNAN"; "-NaN"; "-nan";
   "1.#IND"; "1.#QNAN"; "<NA>"; "N/A"; "NA"; "NULL"; "NaN"; "None"; "n/a";
   "nan"; "null"].

Definition read_field (s : string) : cell :=
  if existsb (String.eqb s) na_values then NaN else Str s.

(** [pd.read_csv(uploaded_file, encoding='utf-8-sig')], on the records of
    the file. *)
Definition read_csv (file : list csv_row) : list raw_row :=
  map (map_columns read_field read_field) file.

(** [pd.to_datetime(col, format='%d/%b/%y %H:%M', errors='coerce')], one
    element: what does not match the format becomes NaT. *)
Definition to_datetime (x : cell) : option Z :=
  match x with
  | Str s => Strptime.strptime s
  | NaN => None
  end.

(** [a - b] on datetime64 elements, then [.dt.total_seconds()]: NaT on
    either side gives NaN. *)
Definition total_seconds_between (a b : option Z) : option Z :=
  match a, b with
  | Some x, Some y => Some (x - y)%Z
  | _, _ => None
  end.

(** [seconds / 86400], the quotient before it is rounded to a float64. *)
Definition in_days (seconds : option Z) : option Q :=
  option_map (fun s => inject_Z s / 86400)%Q seconds.

(** The float64 of a whole number of seconds, as [total_seconds()]
    returns it and as the integer literal [86400] is converted: exact for
    every count below 2^53 in size. *)
Definition float_of_seconds (s : Z) : PrimFloat.float :=
  match s with
  | Z0 => PrimFloat.zero
  | Zpos _ => PrimFloat.of_uint63 (Uint63.of_Z s)
  | Zneg p => PrimFloat.opp (PrimFloat.of_uint63 (Uint63.of_Z (Zpos p)))
  end.

(** [seconds / 86400] as line 50 computes it: the binary64 division,
    rounded to nearest even; a missing difference stays NaN. *)
Definition in_days_double (seconds : option Z) : PrimFloat.float :=
  match seconds with
  | Some s => PrimFloat.div (float_of_seconds s) (float_of_seconds 86400)
  | None => PrimFloat.nan
  end.

Definition with_lead_time (i : issue) : resolved_row :=
  {| rfields := i;
     Lead_Time_Days := in_days (total_seconds_between (Resolved i) (Created i));
     Lead_Time_Double :=
       in_days_double (total_seconds_between (Resolved i) (Created i)) |}.

(** The lambda of the [apply] call. *)
Definition categoria (x : cell) : string :=
  if eq_str x "História" then "Histórias"
  else if contains "Bug" (py_str x) then "Bugs"
  else "Outros".

Definition with_categoria (i : issue) : row :=
  {| fields :=
       {| Issue_key := Issue_key i; Summary := Summary i;
          Issue_Type := Issue_Type i; Status := Status i;
          Priority := Priority i; Assignee := Assignee i;
          Created := Created i; Updated := Updated i; Resolved := Resolved i;
          Others := drop_column "Categoria" (Others i) |};
     Categoria := categoria (Issue_Type i) |}.

(** [load_data]: [None] is the early [return None] without a file. *)
Definition load_data (uploaded_file : option (list csv_row)) :
  option (list row * list resolved_row) :=
  match uploaded_file with
  | None => None
  | Some file =>
      let df := read_csv file in
      let df := map (map_columns (fun x => x) to_datetime) df in
      let resolved_df := select (map notna (map Resolved df)) df in
      let resolved_df := map with_lead_time resolved_df in
      let df := map with_categoria df in
      Some (df, resolved_df)
  end.

End Ingest.

(* ================================================================== *)
(** ** The script below [load_data]: widgets, filters, metrics, export *)

Module Dashboard.
Import Text Calendar Frame Table Ingest.

(** [Timestamp.date()]; on NaT it is NaT again. *)
Definition ts_date (t : option Z) : option Z := option_map date_of t.

(** [st.sidebar.date_input("Período", value=(min_date, max_date),
    min_value=min_date, max_value=max_date)].  The widget writes its
    bounds as [%Y/%m/%d] text, which NaT does not support, so a NaT bound
    is a ValueError.  Otherwise it returns what the user picked: a tuple
    of zero, one or two dates. *)
Definition date_input (min_date max_date : option Z) (picked : list Z) :
  result (list Z) :=
  match min_date, max_date with
  | Some _, Some _ => ok picked
  | _, _ => raise ValueError
  end.

(** ['Todos' not in selected] *)
Definition todos_not_in (selected : list cell) : bool :=
  negb (existsb (fun x => eq_str x "Todos") selected).

(** Truth value of a list: non-empty. *)
Definition truthy {A} (l : list A) : bool :=
  match l with
  | [] => false
  | _ :: _ => true
  end.

(** Lines 109-113. *)
Definition filter_date (date_range : list Z) (df_filtered : list row) : list row :=
  match date_range with
  | [d0; d1] =>
      let dates := map ts_date (map (fun r => Created (fields r)) df_filtered) in
      select (mask_and (map (ge_date d0) dates) (map (le_date d1) dates)) df_filtered
  | _ => df_filtered
  end.

(** Lines 115-116. *)
Definition filter_status (selected_status : list cell) (df_filtered : list row) :
  list row :=
  if todos_not_in selected_status && truthy selected_status
  then select (map (isin selected_status)
                 (map (fun r => Status (fields r)) df_filtered)) df_filtered
  else df_filtered.

(** Lines 118-119.  The category column holds strings only; the selection
    is a list of option values, which may be any cell. *)
Definition filter_tipo (selected_tipo : list cell) (df_filtered : list row) :
  list row :=
  if todos_not_in selected_tipo && truthy selected_tipo
  then select (map (isin selected_tipo)
                 (map (fun r => Str (Categoria r)) df_filtered)) df_filtered
  else df_filtered.

(** Lines 108-119, in the order of the script. *)
Definition apply_filters (date_range : list Z) (selected_status selected_tipo : list cell)
  (df : list row) : list row :=
  filter_tipo selected_tipo (filter_status selected_status (filter_date date_range df)).

(** [a / b] on Python integers. *)
Definition py_div (a b : nat) : result Q :=
  match b with
  | O => raise ZeroDivisionError
  | _ => ok (inject_Z (Z.of_nat a) / inject_Z (Z.of_nat b))%Q
  end.

(** [len(df[df[col] == value])] on the status column. *)
Definition count_status (value : string) (df_filtered : list row) : nat :=
  List.length (select (map (fun x => eq_str x value)
                         (map (fun r => Status (fields r)) df_filtered)) df_filtered).

(** [len(df[df['Categoria'] == value])] *)
Definition count_categoria (value : string) (df_filtered : list row) : nat :=
  List.length (select (map (fun x => String.eqb x value)
                         (map Categoria df_filtered)) df_filtered).

(** Line 135. *)
Definition completion_rate (done_issues total_issues : nat) : result Q :=
  if (0 <? total_issues)%nat
  then (q <- py_div done_issues total_issues ;; ok (q * 100)%Q)
  else ok 0%Q.

(** Line 139. *)
Definition ratio_valor_divida (historias bugs : nat) : result Q :=
  if (0 <? bugs)%nat then py_div historias bugs else ok 0%Q.

(** Line 141: the median ignores NaN and is NaN ([None]) when no lead time
    is a number; the literal [0] stands in for an empty [resolved_df]. *)
Definition lead_time_median (resolved_df : list resolved_row) : option Q :=
  if (0 <? List.length resolved_df)%nat
  then median (map Lead_Time_Days resolved_df)
  else Some 0%Q.

(** Line 143. *)
Definition wip (df_filtered : list row) : nat :=
  List.length
    (select (mask_not (map (isin [Str "Done"; Str "Canceled"; Str "Cancelado"])
                         (map (fun r => Status (fields r)) df_filtered)))
       df_filtered).

(** Line 169, the value of the fourth card: [bugs/total_issues*100]. *)
Definition bug_rate (bugs total_issues : nat) : result Q :=
  q <- py_div bugs total_issues ;; ok (q * 100)%Q.

(** The headline numbers, lines 133-143. *)
Record kpis : Type := mk_kpis {
  k_total_issues : nat;
  k_done_issues : nat;
  k_completion_rate : Q;
  k_historias : nat;
  k_bugs : nat;
  k_ratio_valor_divida : Q;
  k_lead_time_median : option Q;
  k_wip : nat
}.

Definition headline (df_filtered : list row) (resolved_df : list resolved_row) :
  result kpis :=
  let total_issues := List.length df_filtered in
  let done_issues := count_status "Done" df_filtered in
  rate <- completion_rate done_issues total_issues ;;
  let historias := count_categoria "Histórias" df_filtered in
  let bugs := count_categoria "Bugs" df_filtered in
  ratio <- ratio_valor_divida historias bugs ;;
  ok {| k_total_issues := total_issues;
        k_done_issues := done_issues;
        k_completion_rate := rate;
        k_historias := historias;
        k_bugs := bugs;
        k_ratio_valor_divida := ratio;
        k_lead_time_median := lead_time_median resolved_df;
        k_wip := wip df_filtered |}.

(** Order of [sort_values('Created')]: ascending, NaT last. *)
Definition created_le (a b : option Z) : bool :=
  match a, b with
  | Some x, Some y => (x <=? y)%Z
  | Some _, None => true
  | None, Some _ => false
  | None, None => true
  end.

Fixpoint insert_by_created (r : row) (l : list row) : list row :=
  match l with
  | [] => [r]
  | x :: l' =>
      if created_le (Created (fields r)) (Created (fields x))
      then r :: l
      else x :: insert_by_created r l'
  end.

(** [df.sort_values('Created')]; rows of equal creation time keep their
    order here (the library leaves it open). *)
Definition sort_values_created (df : list row) : list row :=
  fold_right insert_by_created [] df.

(** Lines 331-333: the two cumulative columns of [df_sorted]. *)
Record flow : Type := mk_flow {
  Cumulative_Total : list nat;
  Cumulative_Done : list nat
}.

Definition cumulative_flow (df_filtered : list row) : flow :=
  let df_sorted := sort_values_created df_filtered in
  {| Cumulative_Total := seq 1 (List.length df_sorted);
     Cumulative_Done :=
       cumsum (map (fun x => eq_str x "Done")
                 (map (fun r => Status (fields r)) df_sorted)) |}.

(** How [to_csv] writes a cell: the missing value is the empty field. *)
Definition write_cell (x : cell) : string :=
  match x with
  | Str s => s
  | NaN => ""
  end.

Definition write_datetime (t : option Z) : string :=
  match t with
  | Some v => Strptime.isoformat v
  | None => ""
  end.

(** Line 227: [df_filtered['Month']], one element. *)
Definition month_of (t : option Z) : string :=
  match t with
  | Some v => Strptime.month_label v
  | None => "NaT"
  end.

(** Line 377: [df_filtered.to_csv(index=False)], as the records of the
    file.  By then the view carries the columns [Categoria] and [Month]. *)
Definition to_csv (df_filtered : list row) : list csv_row :=
  map (fun r =>
         let c := map_columns write_cell write_datetime (fields r) in
         {| Issue_key := Issue_key c; Summary := Summary c;
            Issue_Type := Issue_Type c; Status := Status c;
            Priority := Priority c; Assignee := Assignee c;
            Created := Created c; Updated := Updated c; Resolved := Resolved c;
            Others := drop_column "Month" (Others c) ++
                      [("Categoria", Categoria r);
                       ("Month", month_of (Created (fields r)))] |})
      df_filtered.

(** What a run of the script shows. *)
Inductive page : Type :=
| Prompt
| Report (k : kpis) (taxa_de_bugs : Q) (cfd : flow) (csv : list csv_row).

(** The script from the upload to the download button, without its chart
    sections.  [picked], [selected_status] and [selected_tipo] are what the
    three sidebar widgets return.  The sections of lines 185-324 and the
    table of lines 360-368 are not part of this function, and two of them
    can raise on their own (line 205 on a status that is not text, line
    289 on an assignee name without a word); so [ok] speaks for the lines
    modelled here, and an exception raised here is raised before any of
    those sections runs. *)
Definition app (uploaded_file : option (list csv_row)) (picked : list Z)
  (selected_status selected_tipo : list cell) : result page :=
  match load_data uploaded_file with
  | None => ok Prompt
  | Some (df, resolved_df) =>
      let min_date := ts_date (series_min (map (fun r => Created (fields r)) df)) in
      let max_date := ts_date (series_max (map (fun r => Created (fields r)) df)) in
      date_range <- date_input min_date max_date picked ;;
      let df_filtered := apply_filters date_range selected_status selected_tipo df in
      k <- headline df_filtered resolved_df ;;
      taxa <- bug_rate (k_bugs k) (k_total_issues k) ;;
      ok (Report k taxa (cumulative_flow df_filtered) (to_csv df_filtered))
  end.

End Dashboard.

(* ================================================================== *)
(** ** Widget options and chart inputs *)

Module Charts.
Import Text Calendar Frame Table Ingest Dashboard.

(** [series.unique()] : the distinct values in order of first appearance;
    the missing value counts as one value. *)
Fixpoint unique_from (seen col : list cell) : list cell :=
  match col with
  | [] => []
  | x :: col' =>
      if isin seen x then unique_from seen col'
      else x :: unique_from (x :: seen) col'
  end.

Definition unique (col : list cell) : list cell := unique_from [] col.

(** Line 92. *)
Definition status_options (df : list row) : list cell :=
  Str "Todos" :: unique (map (fun r => Status (fields r)) df).

(** Line 100. *)
Definition tipo_options (df : list row) : list cell :=
  Str "Todos" :: unique (map (fun r => Str (Categoria r)) df).

(** [series.dropna()], one element. *)
Definition not_nan (x : cell) : bool :=
  match x with
  | Str _ => true
  | NaN => false
  end.

(** Occurrences of a value in a column. *)
Definition count_of (v : cell) (col : list cell) : nat :=
  List.length (filter (cell_eqb v) col).

Fixpoint insert_by_count (p : cell * nat) (l : list (cell * nat)) :
  list (cell * nat) :=
  match l with
  | [] => [p]
  | x :: l' =>
      if (snd x <=? snd p)%nat then p :: l else x :: insert_by_count p l'
  end.

(** [series.value_counts()] : the missing value is dropped, each other
    value is paired with its number of occurrences, largest count first;
    values of equal count stay in order of first appearance here (the
    library leaves it open). *)
Definition value_counts (col : list cell) : list (cell * nat) :=
  fold_right insert_by_count []
    (map (fun v => (v, count_of v col)) (unique (filter not_nan col))).

(** [series == value] for a value taken from an index, one element: the
    missing value equals nothing. *)
Definition eq_cell (x v : cell) : bool :=
  match x, v with
  | Str s, Str t => String.eqb s t
  | _, _ => false
  end.

(** Lines 274-285: the ten most frequent assignees with their counts, and
    for each the number of Done rows and of rows not Done. *)
Record assignees : Type := mk_assignees {
  assignee_counts : list (cell * nat);
  assignee_done : list nat;
  assignee_progress : list nat
}.

Definition top_assignees (df_filtered : list row) : assignees :=
  let assignee_counts :=
    firstn 10 (value_counts (map (fun r => Assignee (fields r)) df_filtered)) in
  let is_assignee := fun a => map (fun x => eq_cell x a)
                                (map (fun r => Assignee (fields r)) df_filtered) in
  let is_done := map (fun x => eq_str x "Done")
                   (map (fun r => Status (fields r)) df_filtered) in
  {| assignee_counts := assignee_counts;
     assignee_done :=
       map (fun a => List.length (select (mask_and (is_assignee a) is_done) df_filtered))
           (map fst assignee_counts);
     assignee_progress :=
       map (fun a => List.length
                       (select (mask_and (is_assignee a) (mask_not is_done)) df_filtered))
           (map fst assignee_counts) |}.

(** One more row in a group table kept in ascending key order. *)
Fixpoint bump (k : string) (groups : list (string * nat)) : list (string * nat) :=
  match groups with
  | [] => [(k, 1%nat)]
  | (k', n) :: groups' =>
      match String.compare k k' with
      | Eq => (k', S n) :: groups'
      | Lt => (k, 1%nat) :: groups
      | Gt => (k', n) :: bump k groups'
      end
  end.

(** [df.groupby(key).size()] on a column of strings: the distinct keys in
    ascending order, each with its number of rows. *)
Definition groupby_size (keys : list string) : list (string * nat) :=
  fold_right bump [] keys.

(** Line 227: [.dt.to_period('M').astype(str)], one element.  What a
    missing timestamp becomes depends on the version of the library: the
    text "NaT" before pandas 3, the missing value from pandas 3 on.
    [nat_text] is that cell. *)
Definition month_cell (nat_text : cell) (t : option Z) : cell :=
  match t with
  | Some v => Str (Strptime.month_label v)
  | None => nat_text
  end.

(** Line 228: [groupby('Month').size()], the rows per month label; a row
    whose label is the missing value is in no group. *)
Definition monthly_counts (nat_text : cell) (df_filtered : list row) :
  list (string * nat) :=
  groupby_size
    (map py_str
       (filter not_nan
          (map (fun r => month_cell nat_text (Created (fields r))) df_filtered))).

(** Lines 190, 204 and 308: the inputs of the composition, status and
    priority charts. *)
Definition categoria_counts (df_filtered : list row) : list (cell * nat) :=
  value_counts (map (fun r => Str (Categoria r)) df_filtered).

Definition status_counts (df_filtered : list row) : list (cell * nat) :=
  value_counts (map (fun r => Status (fields r)) df_filtered).

Definition priority_counts (df_filtered : list row) : list (cell * nat) :=
  value_counts (map (fun r => Priority (fields r)) df_filtered).

End Charts.

(* ================================================================== *)
(** * Vocabulary of the statements *)

Import Text Calendar Frame Table Ingest Dashboard.

(** ** Sample data *)

Definition sample_row (key type status created resolved : string) : csv_row :=
  {| Issue_key := key; Summary := "resumo"; Issue_Type := type;
     Status := status; Priority := "Medium"; Assignee := "Ana Souza";
     Created := created; Updated := created; Resolved := resolved;
     Others := [("Sprint", "S1")] |}.

Definition story_row : csv_row :=
  sample_row "TF-1" "História" "Done" "11/Feb/26 09:00" "13/Feb/26 09:00".
Definition bug_row : csv_row :=
  sample_row "TF-2" "Bug" "To Do" "12/Feb/26 10:30" "".
Definition sub_bug_row : csv_row :=
  sample_row "TF-3" "Sub-Bug crítico" "Done" "not a date" "14/Feb/26 18:00".
Definition task_row : csv_row :=
  sample_row "TF-4" "Tarefa" "Canceled" "15/Feb/26 08:15" "20/Feb/26 08:15".

Definition sample_file : list csv_row :=
  [story_row; bug_row; sub_bug_row; task_row].

(** A file whose only row has a creation date in another format. *)
Definition iso_row : csv_row :=
  sample_row "TF-9" "Bug" "Done" "2026-02-11 09:00" "13/Feb/26 09:00".
Definition iso_file : list csv_row := [iso_row].

(** Lines 37-46 on one record: the row of [df] before the category is
    derived. *)
Definition ingest_row (l : csv_row) : issue :=
  map_columns (fun x => x) to_datetime (map_columns read_field read_field l).

Definition issues_of (file : list csv_row) : list issue := map ingest_row file.

Definition sample_df : list row := map with_categoria (issues_of sample_file).

Definition sample_resolved_df : list resolved_row :=
  map with_lead_time (filter (fun i => notna (Resolved i)) (issues_of sample_file)).

(** The row predicates the three filters apply. *)
Definition keep_date (date_range : list Z) (r : row) : bool :=
  match date_range with
  | [d0; d1] =>
      match Created (fields r) with
      | Some t => (d0 <=? t / 86400)%Z && (t / 86400 <=? d1)%Z
      | None => false
      end
  | _ => true
  end.

Definition keep_status (selected_status : list cell) (r : row) : bool :=
  if todos_not_in selected_status && truthy selected_status
  then isin selected_status (Status (fields r))
  else true.

Definition keep_tipo (selected_tipo : list cell) (r : row) : bool :=
  if todos_not_in selected_tipo && truthy selected_tipo
  then isin selected_tipo (Str (Categoria r))
  else true.

(** Every key of the group table is above [k]. *)
Definition keys_above (k : string) (groups : list (string * nat)) : Prop :=
  Forall (fun g => String.compare k (fst g) = Lt) groups.

Inductive ascending : list (string * nat) -> Prop :=
| ascending_nil : ascending []
| ascending_cons g groups :
    keys_above (fst g) groups -> ascending groups -> ascending (g :: groups).

(** The integers [lo], [lo + 1], ..., [lo + n - 1]. *)
Definition zrange (lo : Z) (n : nat) : list Z :=
  map (fun i => (lo + Z.of_nat i)%Z) (seq 0 n).

(** The calendar round trip at one date: a day that exists in its month
    comes back from its day number. *)
Definition date_roundtrips (ymd : Z * Z * Z) : bool :=
  let '(y, m, d) := ymd in
  negb (d <=? days_in_month y m)%Z ||
  (let '(y', m', d') := civil_from_days (days_from_civil y m d) in
   (y' =? y)%Z && (m' =? m)%Z && (d' =? d)%Z).

(** Every year a two-digit year can denote, with every month and every day
    number up to 31. *)
Definition two_digit_year_dates : list (Z * Z * Z) :=
  flat_map (fun y =>
              flat_map (fun m => map (fun d => (y, m, d)) (zrange 1 31))
                       (zrange 1 12))
           (zrange 1969 100).

(** A text without the separator of the date format. *)
Definition slash_free (s : string) : Prop :=
  Forall (fun c => c <> "/"%char) (list_ascii_of_string s).

(** A text of one-byte characters only (ASCII). *)
Definition ascii_text (l : list ascii) : Prop :=
  Forall (fun c => (nat_of_ascii c < 128)%nat) l.

(** The float64 literal [2.0]. *)
Module Literal.
Import PrimFloat.
Definition two_point_zero : float := 2%float.
End Literal.

(* ================================================================== *)
(** * Properties *)

(** ** The date format on examples *)

Example strptime_feb11 :
  Strptime.strptime "11/Feb/26 09:00" = Some (20495 * 86400 + 9 * 3600).
Proof. reflexivity. Qed.

Example strptime_single_digits :
  Strptime.strptime "1/JAN/70  7:5" = Some (7 * 3600 + 5 * 60).
Proof. reflexivity. Qed.

Example strptime_rejects_iso : Strptime.strptime "2026-02-11 09:00:00" = None.
Proof. reflexivity. Qed.

Example strptime_rejects_feb30 : Strptime.strptime "30/Feb/26 09:00" = None.
Proof. reflexivity. Qed.

Example isoformat_feb11 :
  Strptime.isoformat (20495 * 86400 + 9 * 3600) = "2026-02-11 09:00:00".
Proof. reflexivity. Qed.

Example isoformat_1969 :
  option_map Strptime.isoformat (Strptime.strptime "31/Dec/69 23:59") =
  Some "1969-12-31 23:59:00".
Proof. reflexivity. Qed.

Example utf8_label_length : String.length "História" = 9%nat.
Proof. reflexivity. Qed.

(** ** Text *)

Lemma startswith_spec (p s : string) :
  startswith p s = true <-> exists t, s = (p ++ t)%string.
Proof.
  revert s; induction p as [|a p IH]; intros s; simpl.
  - split; [intros _; now exists s | reflexivity].
  - destruct s as [|b s]; simpl.
    + split; [discriminate | intros [t H]; discriminate].
    + rewrite andb_true_iff, Ascii.eqb_eq, IH. split.
      * intros [-> [t ->]]. now exists t.
      * intros [t H]. injection H as -> ->. split; [reflexivity | now exists t].
Qed.

Lemma contains_spec (sub s : string) :
  contains sub s = true <-> exists pre post, s = (pre ++ sub ++ post)%string.
Proof.
  induction s as [|c s IH]; simpl.
  - rewrite orb_false_r, startswith_spec. split.
    + intros [t H]. now exists ""%string, t.
    + intros [pre [post H]]. destruct pre; simpl in H; [now exists post | discriminate].
  - rewrite orb_true_iff, startswith_spec, IH. split.
    + intros [[t H] | [pre [post H]]].
      * now exists ""%string, t.
      * exists (String c pre), post. simpl. now rewrite H.
    + intros [pre [post H]]. destruct pre as [|a pre]; simpl in H.
      * left. now exists post.
      * right. injection H as _ H. now exists pre, post.
Qed.

(** ** Boolean indexing *)

Lemma select_map {A} (p : A -> bool) (l : list A) :
  select (map p l) l = filter p l.
Proof.
  induction l as [|x l IH]; simpl; [reflexivity|].
  destruct (p x); now rewrite IH.
Qed.

Lemma mask_and_map {A} (p q : A -> bool) (l : list A) :
  mask_and (map p l) (map q l) = map (fun x => p x && q x) l.
Proof. induction l as [|x l IH]; simpl; [reflexivity | now rewrite IH]. Qed.

Lemma filter_swap {A} (p q : A -> bool) (l : list A) :
  filter p (filter q l) = filter q (filter p l).
Proof.
  induction l as [|x l IH]; simpl; [reflexivity|].
  destruct (p x) eqn:Hp, (q x) eqn:Hq; simpl; rewrite ?Hp, ?Hq, IH; reflexivity.
Qed.

Lemma filter_filter {A} (p q : A -> bool) (l : list A) :
  filter p (filter q l) = filter (fun x => q x && p x) l.
Proof.
  induction l as [|x l IH]; simpl; [reflexivity|].
  destruct (q x) eqn:Hq; simpl; [destruct (p x)|]; now rewrite IH.
Qed.

(** ** Ingestion *)

Lemma issues_of_eq (file : list csv_row) :
  map (map_columns (fun x : cell => x) to_datetime) (read_csv file) = issues_of file.
Proof. unfold read_csv, issues_of, ingest_row. apply map_map. Qed.

Lemma load_data_eq (file : list csv_row) :
  load_data (Some file) =
  Some (map with_categoria (issues_of file),
        map with_lead_time (filter (fun i => notna (Resolved i)) (issues_of file))).
Proof.
  unfold load_data. rewrite issues_of_eq.
  now rewrite (map_map Resolved notna), select_map.
Qed.

Lemma in_df_categoria (file : list csv_row) (r : row) :
  In r (map with_categoria (issues_of file)) ->
  Categoria r = categoria (Issue_Type (fields r)).
Proof. rewrite in_map_iff. intros [i [<- _]]. reflexivity. Qed.

(** C1.  Every row of the ingested table carries the category computed
    from its issue type alone: the story category when the issue type is
    exactly the story label, the bug category when it is not but its text
    contains "Bug", and the other category otherwise. *)
Theorem categoria_three_way (file : list csv_row) (df : list row)
  (resolved_df : list resolved_row) (r : row) :
  load_data (Some file) = Some (df, resolved_df) ->
  In r df ->
  Categoria r = categoria (Issue_Type (fields r)) /\
  ((Issue_Type (fields r) = Str "História" /\ Categoria r = "Histórias") \/
   (Issue_Type (fields r) <> Str "História" /\
    (exists pre post, py_str (Issue_Type (fields r)) = (pre ++ "Bug" ++ post)%string) /\
    Categoria r = "Bugs") \/
   (Issue_Type (fields r) <> Str "História" /\
    ~ (exists pre post, py_str (Issue_Type (fields r)) = (pre ++ "Bug" ++ post)%string) /\
    Categoria r = "Outros")).
Proof.
  rewrite load_data_eq. intros H Hin. injection H as <- _.
  apply in_df_categoria in Hin. split; [exact Hin|].
  rewrite Hin. unfold categoria.
  destruct (eq_str (Issue_Type (fields r)) "História") eqn:He.
  - left. split; [|reflexivity].
    destruct (Issue_Type (fields r)); simpl in He; [|discriminate].
    apply String.eqb_eq in He. now subst.
  - right.
    assert (Hne : Issue_Type (fields r) <> Str "História").
    { intros Heq. rewrite Heq in He. simpl in He. discriminate. }
    destruct (contains "Bug" (py_str (Issue_Type (fields r)))) eqn:Hc.
    + left. repeat split; [exact Hne|]. now apply contains_spec.
    + right. repeat split; [exact Hne|].
      intros Hex. apply contains_spec in Hex. congruence.
Qed.

Lemma categoria_three_way_witness :
  Categoria (with_categoria (ingest_row sub_bug_row)) = "Bugs".
Proof.
  destruct (categoria_three_way sample_file sample_df sample_resolved_df
              (with_categoria (ingest_row sub_bug_row))) as [H _].
  - reflexivity.
  - simpl. right. right. left. reflexivity.
  - rewrite H. reflexivity.
Defined.

(** ** Lead time *)

Lemma in_days_value (s : Z) :
  exists q, in_days (Some s) = Some q /\ q == s # 86400.
Proof.
  eexists. split; [reflexivity|].
  unfold Qeq, Qdiv, Qmult, Qinv, inject_Z. simpl. lia.
Qed.

(** *** The stored double *)

Module Binary64.
Import SpecFloat.

Lemma is_nan_of_spec (f : PrimFloat.float) :
  FloatOps.Prim2SF f <> S754_nan -> PrimFloat.is_nan f = false.
Proof.
  intros H. destruct (PrimFloat.is_nan f) eqn:Hn; [|reflexivity].
  exfalso. apply H. unfold FloatOps.Prim2SF. now rewrite Hn.
Qed.

Lemma shr_1_nonneg (mrs : shr_record) : 0 <= shr_m mrs -> 0 <= shr_m (shr_1 mrs).
Proof.
  destruct mrs as [m r s]. simpl. intros H.
  destruct m as [|[p|p|]|p]; simpl; lia.
Qed.

Lemma iter_shr_1_nonneg (n : positive) (mrs : shr_record) :
  0 <= shr_m mrs -> 0 <= shr_m (iter_pos shr_1 n mrs).
Proof.
  revert mrs; induction n as [n IH|n IH|]; intros mrs H; simpl.
  - apply IH, IH, shr_1_nonneg, H.
  - apply IH, IH, H.
  - apply shr_1_nonneg, H.
Qed.

Lemma shr_fexp_nonneg (prec emax m e : Z) (l : location) :
  0 <= m -> 0 <= shr_m (fst (shr_fexp prec emax m e l)).
Proof.
  intros H. unfold shr_fexp, shr.
  assert (H0 : 0 <= shr_m (shr_record_of_loc m l)).
  { destruct l as [|[]]; exact H. }
  destruct (fexp prec emax (Zdigits2 m + e) - e); simpl; try exact H0.
  now apply iter_shr_1_nonneg.
Qed.

Lemma round_nearest_even_nonneg (m : Z) (l : location) :
  0 <= m -> 0 <= round_nearest_even m l.
Proof.
  intros H. unfold round_nearest_even.
  destruct l as [|[]]; try lia. destruct (Z.even m); lia.
Qed.

Lemma binary_round_aux_not_nan (prec emax : Z) (sx : bool) (mx ex : Z)
  (lx : location) :
  0 <= mx -> binary_round_aux prec emax sx mx ex lx <> S754_nan.
Proof.
  intros H. unfold binary_round_aux.
  pose proof (shr_fexp_nonneg prec emax mx ex lx H) as H1.
  destruct (shr_fexp prec emax mx ex lx) as [mrs' e']. simpl in H1.
  pose proof (shr_fexp_nonneg prec emax
                (round_nearest_even (shr_m mrs') (loc_of_shr_record mrs')) e' loc_Exact
                (round_nearest_even_nonneg _ _ H1)) as H2.
  destruct (shr_fexp prec emax _ e' loc_Exact) as [mrs'' e'']. simpl in H2.
  destruct (shr_m mrs'') as [|p|p]; try discriminate; [|lia].
  destruct (e'' <=? emax - prec); discriminate.
Qed.

Lemma binary_normalize_not_nan (prec emax m e : Z) (szero : bool) :
  binary_normalize prec emax m e szero <> S754_nan.
Proof.
  unfold binary_normalize, binary_round.
  destruct m as [|p|p]; try discriminate;
    destruct (shl_align _ _ _) as [mz ez]; apply binary_round_aux_not_nan; lia.
Qed.

Lemma float_of_seconds_not_nan (s : Z) :
  FloatOps.Prim2SF (float_of_seconds s) <> S754_nan.
Proof.
  unfold float_of_seconds. destruct s as [|p|p].
  - vm_compute. discriminate.
  - rewrite FloatAxioms.of_uint63_spec. apply binary_normalize_not_nan.
  - rewrite FloatAxioms.opp_spec, FloatAxioms.of_uint63_spec.
    pose proof (binary_normalize_not_nan FloatOps.prec FloatOps.emax
                  (Uint63Axioms.to_Z (Uint63.of_Z (Z.pos p))) 0 false) as H.
    destruct (binary_normalize _ _ _ _ _); simpl; try discriminate. contradiction.
Qed.

Lemma SFdiv_finite_not_nan (prec emax : Z) (x : spec_float) (sy : bool)
  (my : positive) (ey : Z) :
  x <> S754_nan -> SFdiv prec emax x (S754_finite sy my ey) <> S754_nan.
Proof.
  intros Hx. destruct x as [sx|sx| |sx mx ex]; simpl; try discriminate; [contradiction|].
  unfold SFdiv_core_binary.
  set (m' := match _ with Z.pos _ => _ | _ => _ end).
  assert (Hm : 0 <= m').
  { unfold m'. destruct (_ - _ - _) as [|q|q]; try lia. apply Z.shiftl_nonneg. lia. }
  pose proof (Z.div_eucl_eq m' (Z.pos my) ltac:(lia)) as Heq.
  pose proof (Z.mod_pos_bound m' (Z.pos my) ltac:(lia)) as Hr.
  unfold Z.modulo in Hr.
  destruct (Z.div_eucl m' (Z.pos my)) as [q r]. simpl in Hr.
  apply binary_round_aux_not_nan. nia.
Qed.

Lemma in_days_double_not_nan (s : Z) :
  PrimFloat.is_nan (in_days_double (Some s)) = false.
Proof.
  simpl. apply is_nan_of_spec. rewrite FloatAxioms.div_spec.
  replace (FloatOps.Prim2SF (float_of_seconds 86400))
    with (S754_finite false 5937362789990400 (-36)) by (vm_compute; reflexivity).
  apply SFdiv_finite_not_nan, float_of_seconds_not_nan.
Qed.

End Binary64.

(** One minute is stored as a double that is close to, and not equal to,
    1/1440 of a day. *)
Example one_minute_is_rounded :
  FloatOps.Prim2SF (in_days_double (Some 60)) =
    SpecFloat.S754_finite false 6405119470038039 (-63) /\
  ~ (6405119470038039 # 2 ^ 63 == 1 # 1440).
Proof. split; [reflexivity | discriminate]. Qed.

(** Forty-five minutes, and any multiple of them, are stored exactly. *)
Example forty_five_minutes_are_exact :
  FloatOps.Prim2SF (in_days_double (Some 2700)) =
    SpecFloat.S754_finite false 4503599627370496 (-57) /\
  4503599627370496 # 2 ^ 57 == 2700 # 86400.
Proof. split; reflexivity. Qed.

Example two_point_zero_is_two :
  FloatOps.Prim2SF Literal.two_point_zero =
    SpecFloat.S754_finite false 4503599627370496 (-51) /\
  4503599627370496 # 2 ^ 51 == 2.
Proof. split; reflexivity. Qed.

(** C2, as the code has it.  [resolved_df] holds exactly the records whose
    resolved timestamp is not null, in order.  For each of them with a
    created timestamp the stored lead time is the float64 quotient of the
    whole seconds of (resolved - created) by 86400, rounded once by the
    division and not otherwise truncated, and it is a number; for each of
    them without a created timestamp it is NaN.  A record created
    11/Feb/26 09:00 and resolved 13/Feb/26 09:00 has the lead time 2.0
    exactly. *)
Theorem lead_time_days_of_resolved (file : list csv_row) (df : list row)
  (resolved_df : list resolved_row) :
  load_data (Some file) = Some (df, resolved_df) ->
  map rfields resolved_df = filter (fun i => notna (Resolved i)) (issues_of file) /\
  (forall r, In r resolved_df ->
     exists res, Resolved (rfields r) = Some res /\
       match Created (rfields r) with
       | Some c =>
           Lead_Time_Double r =
             PrimFloat.div (float_of_seconds (res - c)) (float_of_seconds 86400) /\
           PrimFloat.is_nan (Lead_Time_Double r) = false
       | None => PrimFloat.is_nan (Lead_Time_Double r) = true
       end) /\
  (forall l, In l file ->
     Created l = "11/Feb/26 09:00" -> Resolved l = "13/Feb/26 09:00" ->
     exists r, In r resolved_df /\ rfields r = ingest_row l /\
               Lead_Time_Double r = Literal.two_point_zero).
Proof.
  rewrite load_data_eq. intros H. injection H as _ <-.
  split; [|split].
  - rewrite map_map. simpl. apply map_id.
  - intros r Hin. apply in_map_iff in Hin as [i [<- Hi]].
    apply filter_In in Hi as [_ Hi].
    unfold with_lead_time, Lead_Time_Double, rfields.
    destruct (Resolved i) as [res|]; [|discriminate].
    exists res. split; [reflexivity|].
    destruct (Created i) as [c|]; [|reflexivity].
    split; [reflexivity | apply Binary64.in_days_double_not_nan].
  - intros l Hin Hc Hr.
    assert (Hres : Resolved (ingest_row l) = Some (20497 * 86400 + 32400)%Z).
    { unfold ingest_row. simpl. rewrite Hr. reflexivity. }
    assert (Hcre : Created (ingest_row l) = Some (20495 * 86400 + 32400)%Z).
    { unfold ingest_row. simpl. rewrite Hc. reflexivity. }
    exists (with_lead_time (ingest_row l)).
    split; [|split; [reflexivity|]].
    + apply in_map, filter_In. split.
      * unfold issues_of. now apply in_map.
      * now rewrite Hres.
    + unfold with_lead_time, Lead_Time_Double. rewrite Hres, Hcre. reflexivity.
Qed.

Lemma lead_time_days_of_resolved_witness :
  exists r, In r sample_resolved_df /\ rfields r = ingest_row story_row /\
            Lead_Time_Double r = Literal.two_point_zero.
Proof.
  destruct (lead_time_days_of_resolved sample_file sample_df sample_resolved_df)
    as [_ [_ H]].
  - reflexivity.
  - apply (H story_row); [simpl; auto | reflexivity | reflexivity].
Defined.

(** C2, counterexample to the claim as stated.  The only row of
    [iso_file] has a resolved timestamp and is in [resolved_df], and its
    lead time is NaN, because its created value does not parse. *)
Lemma lead_time_null_without_created :
  exists df r,
    load_data (Some iso_file) = Some (df, [r]) /\
    Resolved (rfields r) = Some (20497 * 86400 + 32400)%Z /\
    Created (rfields r) = None /\
    Lead_Time_Days r = None /\
    PrimFloat.is_nan (Lead_Time_Double r) = true.
Proof. do 2 eexists. repeat split. Qed.

(** ** Filters *)

Lemma filter_true {A} (l : list A) : filter (fun _ => true) l = l.
Proof. induction l as [|x l IH]; simpl; [reflexivity | now rewrite IH]. Qed.

Lemma filter_date_eq (date_range : list Z) (df : list row) :
  filter_date date_range df = filter (keep_date date_range) df.
Proof.
  unfold filter_date, keep_date.
  destruct date_range as [|d0 [|d1 [|d2 rest]]]; try (now rewrite filter_true).
  rewrite !map_map, mask_and_map, select_map.
  apply filter_ext. intros r. unfold ts_date, date_of.
  destruct (Created (fields r)); reflexivity.
Qed.

Lemma filter_status_eq (selected_status : list cell) (df : list row) :
  filter_status selected_status df = filter (keep_status selected_status) df.
Proof.
  unfold filter_status, keep_status.
  destruct (todos_not_in selected_status && truthy selected_status).
  - now rewrite map_map, select_map.
  - now rewrite filter_true.
Qed.

Lemma filter_tipo_eq (selected_tipo : list cell) (df : list row) :
  filter_tipo selected_tipo df = filter (keep_tipo selected_tipo) df.
Proof.
  unfold filter_tipo, keep_tipo.
  destruct (todos_not_in selected_tipo && truthy selected_tipo).
  - now rewrite map_map, select_map.
  - now rewrite filter_true.
Qed.

Lemma apply_filters_eq (date_range : list Z) (selected_status selected_tipo : list cell)
  (df : list row) :
  apply_filters date_range selected_status selected_tipo df =
  filter (fun r => keep_date date_range r && keep_status selected_status r &&
                   keep_tipo selected_tipo r) df.
Proof.
  unfold apply_filters.
  rewrite filter_tipo_eq, filter_status_eq, filter_date_eq, !filter_filter.
  apply filter_ext. intros r. now rewrite andb_assoc.
Qed.

Lemma apply_filters_incl (date_range : list Z) (selected_status selected_tipo : list cell)
  (df : list row) (r : row) :
  In r (apply_filters date_range selected_status selected_tipo df) -> In r df.
Proof. rewrite apply_filters_eq, filter_In. tauto. Qed.

(** C5.  With both endpoints chosen the date filter keeps, in order, exactly
    the rows whose created timestamp is not null and whose day lies in
    [start, end], both ends included; a row with a null created timestamp
    is not kept.  With any other number of endpoints the filter keeps
    every row. *)
Theorem date_range_filter (df : list row) (d0 d1 : Z) :
  filter_date [d0; d1] df = filter (keep_date [d0; d1]) df /\
  (forall r, In r (filter_date [d0; d1] df) <->
             In r df /\ exists t, Created (fields r) = Some t /\
                                  (d0 <= t / 86400 <= d1)%Z) /\
  (forall r, In r (filter_date [d0; d1] df) -> Created (fields r) <> None) /\
  (forall date_range, List.length date_range <> 2%nat ->
                      filter_date date_range df = df).
Proof.
  assert (Hin : forall r, In r (filter_date [d0; d1] df) <->
             In r df /\ exists t, Created (fields r) = Some t /\
                                  (d0 <= t / 86400 <= d1)%Z).
  { intros r. rewrite filter_date_eq, filter_In. unfold keep_date.
    split.
    - intros [Hr Hk]. split; [exact Hr|].
      destruct (Created (fields r)) as [t|]; [|discriminate].
      exists t. split; [reflexivity|].
      apply andb_true_iff in Hk as [H0 H1].
      apply Z.leb_le in H0. apply Z.leb_le in H1. lia.
    - intros [Hr [t [-> [H0 H1]]]]. split; [exact Hr|].
      apply andb_true_iff. split; now apply Z.leb_le. }
  split; [apply filter_date_eq|]. split; [exact Hin|]. split.
  - intros r Hr. apply Hin in Hr as [_ [t [-> _]]]. discriminate.
  - intros date_range Hlen.
    destruct date_range as [|a [|b [|c rest]]]; try reflexivity.
    simpl in Hlen. contradiction.
Qed.

(** C6.  For a fixed selection the three filters give the same rows in
    each of the six orders of application, and those rows are the rows of
    the table that pass the three predicates together. *)
Theorem filters_commute (date_range : list Z) (selected_status selected_tipo : list cell)
  (df : list row) :
  let D := filter_date date_range in
  let S := filter_status selected_status in
  let T := filter_tipo selected_tipo in
  let all := apply_filters date_range selected_status selected_tipo df in
  T (S (D df)) = all /\ T (D (S df)) = all /\ S (T (D df)) = all /\
  S (D (T df)) = all /\ D (S (T df)) = all /\ D (T (S df)) = all /\
  all = filter (fun r => keep_date date_range r && keep_status selected_status r &&
                         keep_tipo selected_tipo r) df.
Proof.
  cbv zeta. unfold apply_filters.
  repeat split;
    rewrite ?filter_tipo_eq, ?filter_status_eq, ?filter_date_eq, ?filter_filter;
    apply filter_ext; intros r;
    destruct (keep_date date_range r), (keep_status selected_status r),
             (keep_tipo selected_tipo r); reflexivity.
Qed.

(** C9.  An empty status selection, or an empty category selection, turns
    its filter off: every row is kept.  Membership in the empty selection
    would keep none. *)
Theorem empty_selection_keeps_all (date_range : list Z) (selected : list cell)
  (df : list row) :
  filter_status [] df = df /\
  filter_tipo [] df = df /\
  apply_filters date_range [] [] df = filter_date date_range df /\
  apply_filters date_range [] selected df =
    filter_tipo selected (filter_date date_range df) /\
  apply_filters date_range selected [] df =
    filter_status selected (filter_date date_range df) /\
  select (map (isin []) (map (fun r => Status (fields r)) df)) df = [] /\
  select (map (isin []) (map (fun r => Str (Categoria r)) df)) df = [].
Proof.
  repeat split; try reflexivity.
  - induction df as [|r df IH]; simpl; [reflexivity | exact IH].
  - induction df as [|r df IH]; simpl; [reflexivity | exact IH].
Qed.

(** ** Headline metrics *)

Lemma py_div_pos (a b : nat) :
  (0 < b)%nat -> exists q, py_div a b = ok q.
Proof. destruct b; [lia|]. intros _. eexists. reflexivity. Qed.

Lemma completion_rate_ok (done_issues total_issues : nat) :
  exists q, completion_rate done_issues total_issues = ok q.
Proof.
  unfold completion_rate. destruct total_issues; simpl; eexists; reflexivity.
Qed.

Lemma ratio_valor_divida_ok (historias bugs : nat) :
  exists q, ratio_valor_divida historias bugs = ok q.
Proof.
  unfold ratio_valor_divida. destruct bugs; simpl; eexists; reflexivity.
Qed.

(** Lines 133-143 never raise, and the median they report is the one of
    [resolved_df]. *)
Lemma headline_ok (df_filtered : list row) (resolved_df : list resolved_row) :
  exists k, headline df_filtered resolved_df = ok k /\
            k_total_issues k = List.length df_filtered /\
            k_bugs k = count_categoria "Bugs" df_filtered /\
            k_lead_time_median k = lead_time_median resolved_df.
Proof.
  unfold headline.
  destruct (completion_rate_ok (count_status "Done" df_filtered)
              (List.length df_filtered)) as [q1 ->].
  destruct (ratio_valor_divida_ok (count_categoria "Histórias" df_filtered)
              (count_categoria "Bugs" df_filtered)) as [q2 ->].
  simpl. eexists. repeat split.
Qed.

(** C3, at the failing input.  On an empty view the completion rate is 0,
    the stories/bugs ratio is 0 without bugs, the median has the
    placeholder 0 for an empty resolved subset, and lines 133-143 return
    their numbers; the bug percentage of the fourth card divides by the
    total without a guard, and the run ends in ZeroDivisionError. *)
Theorem bug_rate_raises_on_empty_view :
  (forall done_issues, completion_rate done_issues 0 = ok 0%Q) /\
  (forall historias, ratio_valor_divida historias 0 = ok 0%Q) /\
  lead_time_median [] = Some 0%Q /\
  (forall resolved_df,
     headline [] resolved_df =
     ok (mk_kpis 0 0 0%Q 0 0 0%Q (lead_time_median resolved_df) 0)) /\
  (forall bugs, bug_rate bugs 0 = raise ZeroDivisionError) /\
  apply_filters [20495; 20499]%Z [Str "To Do"] [Str "Histórias"] sample_df = [] /\
  app (Some sample_file) [20495; 20499]%Z [Str "To Do"] [Str "Histórias"] =
    raise ZeroDivisionError.
Proof. repeat split. Qed.


(** C4.  The median lead time among the headline numbers is the median of
    the resolved subset built by [load_data]; two runs over the same file
    with different date, status and category selections report the same
    value. *)
Theorem lead_time_median_ignores_filters (file : list csv_row) (df : list row)
  (resolved_df : list resolved_row)
  (date_range date_range' : list Z)
  (selected_status selected_tipo selected_status' selected_tipo' : list cell) :
  load_data (Some file) = Some (df, resolved_df) ->
  resolved_df =
    map with_lead_time (filter (fun i => notna (Resolved i)) (issues_of file)) /\
  exists k k',
    headline (apply_filters date_range selected_status selected_tipo df)
             resolved_df = ok k /\
    headline (apply_filters date_range' selected_status' selected_tipo' df)
             resolved_df = ok k' /\
    k_lead_time_median k = k_lead_time_median k' /\
    k_lead_time_median k =
      (if (0 <? List.length resolved_df)%nat
       then median (map Lead_Time_Days resolved_df)
       else Some 0%Q).
Proof.
  intros Hl. split.
  - rewrite load_data_eq in Hl. now injection Hl as _ <-.
  - destruct (headline_ok (apply_filters date_range selected_status selected_tipo df)
                resolved_df) as [k [Hk [_ [_ Hm]]]].
    destruct (headline_ok (apply_filters date_range' selected_status' selected_tipo' df)
                resolved_df) as [k' [Hk' [_ [_ Hm']]]].
    exists k, k'. repeat split; try assumption.
    now rewrite Hm, Hm'.
Qed.

Lemma lead_time_median_ignores_filters_witness :
  exists k k',
    headline (apply_filters [20495; 20499]%Z [Str "Todos"] [Str "Todos"] sample_df)
             sample_resolved_df = ok k /\
    headline (apply_filters [20496%Z] [Str "To Do"] [Str "Bugs"] sample_df)
             sample_resolved_df = ok k' /\
    k_lead_time_median k = k_lead_time_median k' /\
    k_lead_time_median k =
      (if (0 <? List.length sample_resolved_df)%nat
       then median (map Lead_Time_Days sample_resolved_df)
       else Some 0%Q).
Proof.
  apply (lead_time_median_ignores_filters sample_file sample_df sample_resolved_df).
  reflexivity.
Defined.

(** A run that reaches its report shows that same median. *)
Lemma app_reports_ingestion_median (file : list csv_row) (df : list row)
  (resolved_df : list resolved_row) (picked : list Z)
  (selected_status selected_tipo : list cell)
  (k : kpis) (taxa : Q) (cfd : flow) (csv : list csv_row) :
  load_data (Some file) = Some (df, resolved_df) ->
  app (Some file) picked selected_status selected_tipo = ok (Report k taxa cfd csv) ->
  k_lead_time_median k = lead_time_median resolved_df.
Proof.
  intros Hl. unfold app. rewrite Hl.
  destruct (date_input _ _ picked) as [e|date_range]; simpl; [discriminate|].
  destruct (headline_ok (apply_filters date_range selected_status selected_tipo df)
              resolved_df) as [k0 [-> [_ [_ Hm]]]].
  simpl. destruct (bug_rate _ _) as [e|q]; simpl; [discriminate|].
  intros H. injection H as <- _ _ _. exact Hm.
Qed.

Example sample_median :
  exists q, lead_time_median sample_resolved_df = Some q /\ q == 7 # 2.
Proof. eexists. split; [reflexivity | reflexivity]. Qed.

(** The median skips the row whose lead time is null. *)
Example sample_lead_times :
  map (fun r => option_map Qred (Lead_Time_Days r)) sample_resolved_df =
  [Some 2%Q; None; Some 5%Q].
Proof. reflexivity. Qed.

(** ** Malformed dates *)


Lemma series_min_all_null (col : list (option Z)) :
  (forall x, In x col -> x = None) -> series_min col = None.
Proof.
  induction col as [|x col IH]; intros H; simpl; [reflexivity|].
  rewrite (H x (or_introl eq_refl)). apply IH. intros y Hy. apply H. now right.
Qed.

Lemma series_min_some (col : list (option Z)) (t : Z) :
  In (Some t) col -> exists m, series_min col = Some m.
Proof.
  induction col as [|x col IH]; simpl; [contradiction|].
  intros [-> | Hin].
  - destruct (series_min col); eexists; reflexivity.
  - destruct x as [v|]; [|now apply IH].
    destruct (series_min col); eexists; reflexivity.
Qed.

Lemma series_max_some (col : list (option Z)) (t : Z) :
  In (Some t) col -> exists m, series_max col = Some m.
Proof.
  induction col as [|x col IH]; simpl; [contradiction|].
  intros [-> | Hin].
  - destruct (series_max col); eexists; reflexivity.
  - destruct x as [v|]; [|now apply IH].
    destruct (series_max col); eexists; reflexivity.
Qed.

(** When no created value of the file parses, the run ends in ValueError
    at the date-range widget, whatever the widgets would return. *)
Lemma app_raises_without_created (file : list csv_row) (picked : list Z)
  (selected_status selected_tipo : list cell) :
  (forall l, In l file -> to_datetime (read_field (Created l)) = None) ->
  app (Some file) picked selected_status selected_tipo = raise ValueError.
Proof.
  intros Hnull. unfold app. rewrite load_data_eq.
  rewrite series_min_all_null; [reflexivity|].
  intros x Hx. rewrite map_map in Hx. unfold issues_of in Hx. rewrite map_map in Hx.
  apply in_map_iff in Hx as [l [<- Hl]]. simpl. now apply Hnull.
Qed.


(** C7, at the failing input.  The only row of [iso_file] has a created
    value that does not match the format.  Ingestion keeps the row and
    nulls that field alone; the run then ends in ValueError for every
    state of the widgets. *)
Theorem all_created_unparsable_raises (picked : list Z)
  (selected_status selected_tipo : list cell) :
  (exists df resolved_df r,
     load_data (Some iso_file) = Some (df, resolved_df) /\ df = [r] /\
     Created (fields r) = None /\
     Resolved (fields r) = Some (20497 * 86400 + 32400)%Z /\
     Status (fields r) = Str "Done" /\ Categoria r = "Bugs") /\
  app (Some iso_file) picked selected_status selected_tipo = raise ValueError.
Proof.
  split.
  - do 3 eexists. repeat split.
  - apply app_raises_without_created.
    intros l [<- | []]. reflexivity.
Qed.

(** ** Export and re-ingestion *)

(** No spelling of the missing value is the story label or contains
    "Bug", so reading such a text as the missing value leaves the category
    where it was. *)
Lemma categoria_of_na_text (s : string) :
  existsb (String.eqb s) na_values = true -> categoria (Str s) = "Outros".
Proof.
  unfold na_values. simpl. rewrite !orb_true_iff.
  intros H.
  repeat (destruct H as [H | H]; [apply String.eqb_eq in H; subst s; reflexivity|]).
  discriminate.
Qed.

Lemma categoria_read_write (x : cell) :
  categoria (read_field (write_cell x)) = categoria x.
Proof.
  destruct x as [s|]; simpl; [|reflexivity].
  unfold read_field.
  destruct (existsb (String.eqb s) na_values) eqn:Hna; [|reflexivity].
  now rewrite (categoria_of_na_text s Hna).
Qed.

(** The category a row gets when its exported record is ingested again. *)
Lemma reingested_categoria (view : list row) :
  map Categoria (map with_categoria (issues_of (to_csv view))) =
  map (fun r => categoria (Issue_Type (fields r))) view.
Proof.
  unfold issues_of, to_csv. rewrite !map_map.
  apply map_ext. intros r. simpl. apply categoria_read_write.
Qed.

(** C8.  The filtered view of an ingested file, written by the export and
    read again by [load_data], gives a table with as many rows as the view
    and with the same category in every row. *)
Theorem export_reingest_roundtrip (file : list csv_row) (df : list row)
  (resolved_df : list resolved_row) (date_range : list Z)
  (selected_status selected_tipo : list cell) :
  load_data (Some file) = Some (df, resolved_df) ->
  let view := apply_filters date_range selected_status selected_tipo df in
  exists df' resolved_df',
    load_data (Some (to_csv view)) = Some (df', resolved_df') /\
    List.length df' = List.length view /\
    map Categoria df' = map Categoria view.
Proof.
  intros Hl view. rewrite load_data_eq. do 2 eexists.
  split; [reflexivity|]. split.
  - unfold issues_of, to_csv. now rewrite !length_map.
  - rewrite reingested_categoria. apply map_ext_in. intros r Hr. symmetry.
    apply apply_filters_incl in Hr.
    rewrite load_data_eq in Hl. injection Hl as <- _.
    now apply (in_df_categoria file).
Qed.

Lemma export_reingest_roundtrip_witness :
  exists df' resolved_df',
    load_data (Some (to_csv (apply_filters [20495; 20499]%Z [Str "Done"; Str "To Do"]
                               [] sample_df))) = Some (df', resolved_df') /\
    List.length df' = 2%nat /\
    map Categoria df' = ["Histórias"; "Bugs"].
Proof.
  apply (export_reingest_roundtrip sample_file sample_df sample_resolved_df
           [20495; 20499]%Z [Str "Done"; Str "To Do"] []).
  reflexivity.
Defined.

(** The dates of an exported row are written in another format and do not
    survive the second ingestion. *)
Example export_of_sample :
  map (fun l => (Issue_key l, Created l, Resolved l, Others l))
      (to_csv (apply_filters [20495; 20499]%Z [Str "Done"] [] sample_df)) =
  [("TF-1", "2026-02-11 09:00:00", "2026-02-13 09:00:00",
    [("Sprint", "S1"); ("Categoria", "Histórias"); ("Month", "2026-02")])].
Proof. reflexivity. Qed.

Example reingest_of_sample :
  map (fun i => (Created i, Resolved i))
      (issues_of (to_csv (apply_filters [20495; 20499]%Z [Str "Done"] [] sample_df))) =
  [(None, None)].
Proof. reflexivity. Qed.

(** ** Cumulative flow *)

Lemma insert_by_created_length (r : row) (l : list row) :
  List.length (insert_by_created r l) = S (List.length l).
Proof.
  induction l as [|x l IH]; simpl; [reflexivity|].
  destruct (created_le _ _); simpl; [reflexivity | now rewrite IH].
Qed.

Lemma sort_values_created_length (df : list row) :
  List.length (sort_values_created df) = List.length df.
Proof.
  induction df as [|r df IH]; simpl; [reflexivity|].
  now rewrite insert_by_created_length, IH.
Qed.

Lemma insert_by_created_perm (r : row) (l : list row) :
  Permutation (r :: l) (insert_by_created r l).
Proof.
  induction l as [|x l IH]; simpl; [apply Permutation_refl|].
  destruct (created_le _ _); [apply Permutation_refl|].
  eapply perm_trans; [apply perm_swap | now apply perm_skip].
Qed.

Lemma sort_values_created_perm (df : list row) :
  Permutation df (sort_values_created df).
Proof.
  induction df as [|r df IH]; simpl; [apply perm_nil|].
  eapply perm_trans; [apply perm_skip, IH | apply insert_by_created_perm].
Qed.

Lemma cumsum_from_length (col : list bool) (acc : nat) :
  List.length (cumsum_from acc col) = List.length col.
Proof.
  revert acc; induction col as [|b col IH]; intros acc; simpl;
    [reflexivity | now rewrite IH].
Qed.

(** The running sum at position [i] is the start value plus the number of
    True among the first [i + 1] elements. *)
Lemma cumsum_from_nth (col : list bool) (acc i : nat) :
  (i < List.length col)%nat ->
  nth i (cumsum_from acc col) 0%nat =
  (acc + List.length (filter (fun b => b) (firstn (S i) col)))%nat.
Proof.
  revert acc i; induction col as [|b col IH]; intros acc i Hi; simpl in Hi; [lia|].
  destruct i as [|i].
  - simpl. destruct b; simpl; lia.
  - change (nth (S i) (cumsum_from acc (b :: col)) 0%nat)
      with (nth i (cumsum_from (acc + if b then 1 else 0) col) 0%nat).
    rewrite IH by lia.
    change (firstn (S (S i)) (b :: col)) with (b :: firstn (S i) col).
    destruct b; simpl; lia.
Qed.

Lemma count_true_firstn_le (col : list bool) (n : nat) :
  (List.length (filter (fun b => b) (firstn n col)) <= n)%nat.
Proof.
  revert n; induction col as [|b col IH]; intros [|n]; simpl; try lia.
  specialize (IH n). destruct b; simpl; lia.
Qed.

Lemma count_true_firstn_mono (col : list bool) (n m : nat) :
  (n <= m)%nat ->
  (List.length (filter (fun b => b) (firstn n col)) <=
   List.length (filter (fun b => b) (firstn m col)))%nat.
Proof.
  revert n m; induction col as [|b col IH]; intros [|n] [|m] H; simpl; try lia.
  specialize (IH n m). destruct b; simpl; lia.
Qed.

(** C10.  At every position [i] of the sorted view the running total is
    [i + 1], the running count of Done rows is the number of Done rows
    among the first [i + 1] and is at most the running total, and neither
    series decreases from a position to a later one. *)
Theorem cumulative_flow_bounds (df_filtered : list row) (i j : nat) :
  (i <= j)%nat -> (j < List.length df_filtered)%nat ->
  let f := cumulative_flow df_filtered in
  let total := fun n => nth n (Cumulative_Total f) 0%nat in
  let done := fun n => nth n (Cumulative_Done f) 0%nat in
  List.length (Cumulative_Total f) = List.length df_filtered /\
  List.length (Cumulative_Done f) = List.length df_filtered /\
  total i = (i + 1)%nat /\
  done i = List.length
             (filter (fun r => eq_str (Status (fields r)) "Done")
                (firstn (S i) (sort_values_created df_filtered))) /\
  (done i <= total i)%nat /\
  (total i <= total j)%nat /\
  (done i <= done j)%nat.
Proof.
  intros Hij Hj. cbv zeta. unfold cumulative_flow, cumsum.
  cbn [Cumulative_Total Cumulative_Done].
  set (sorted := sort_values_created df_filtered).
  assert (Hlen : List.length sorted = List.length df_filtered)
    by apply sort_values_created_length.
  set (col := map (fun x => eq_str x "Done") (map (fun r => Status (fields r)) sorted)).
  assert (Hcol : List.length col = List.length df_filtered).
  { unfold col. now rewrite !length_map. }
  rewrite !seq_nth by lia.
  rewrite !cumsum_from_nth by lia.
  rewrite length_seq, cumsum_from_length, Hlen, Hcol.
  repeat split; try lia.
  - unfold col. rewrite map_map, firstn_map.
    generalize (firstn (S i) sorted). intros l. rewrite Nat.add_0_l.
    induction l as [|r l IH]; simpl; [reflexivity|].
    destruct (eq_str (Status (fields r)) "Done"); simpl; now rewrite IH.
  - pose proof (count_true_firstn_le col (S i)). lia.
  - pose proof (count_true_firstn_mono col (S i) (S j)). lia.
Qed.

Lemma cumulative_flow_bounds_witness :
  let f := cumulative_flow sample_df in
  nth 1 (Cumulative_Total f) 0%nat = 2%nat /\
  (nth 1 (Cumulative_Done f) 0 <= nth 1 (Cumulative_Total f) 0)%nat /\
  (nth 1 (Cumulative_Done f) 0 <= nth 3 (Cumulative_Done f) 0)%nat.
Proof.
  destruct (cumulative_flow_bounds sample_df 1 3) as [_ [_ [H1 [_ [H2 [_ H3]]]]]].
  - lia.
  - simpl. lia.
  - cbv zeta. split; [exact H1 | split; [exact H2 | exact H3]].
Defined.

Example sample_flow :
  cumulative_flow sample_df =
  {| Cumulative_Total := [1; 2; 3; 4]%nat; Cumulative_Done := [1; 1; 1; 2]%nat |}.
Proof. reflexivity. Qed.

Example sample_sorted_keys :
  map (fun r => Issue_key (fields r)) (sort_values_created sample_df) =
  [Str "TF-1"; Str "TF-2"; Str "TF-4"; Str "TF-3"].
Proof. reflexivity. Qed.

(* ================================================================== *)
(** * Further properties of the script *)

Import Charts.

(** ** Counting *)

Lemma cell_eqb_eq (x y : cell) : cell_eqb x y = true <-> x = y.
Proof.
  destruct x as [s|], y as [t|]; simpl; split; intros H;
    try discriminate; try reflexivity.
  - apply String.eqb_eq in H. now subst.
  - injection H as ->. apply String.eqb_refl.
Qed.

Lemma isin_In (values : list cell) (x : cell) :
  isin values x = true <-> In x values.
Proof.
  unfold isin. rewrite existsb_exists. split.
  - intros [y [Hy Heq]]. apply cell_eqb_eq in Heq. now subst.
  - intros H. exists x. split; [exact H | now apply cell_eqb_eq].
Qed.

Lemma filter_split_length {A} (p : A -> bool) (l : list A) :
  (List.length (filter p l) + List.length (filter (fun x => negb (p x)) l) =
   List.length l)%nat.
Proof.
  induction l as [|x l IH]; simpl; [reflexivity|].
  destruct (p x); simpl; lia.
Qed.

Lemma filter_length_implies {A} (p q : A -> bool) (l : list A) :
  (forall x, p x = true -> q x = true) ->
  (List.length (filter p l) <= List.length (filter q l))%nat.
Proof.
  intros H. induction l as [|x l IH]; simpl; [lia|].
  destruct (p x) eqn:Hp; [rewrite (H x Hp); simpl; lia|].
  destruct (q x); simpl; lia.
Qed.

Lemma count_status_eq (value : string) (df_filtered : list row) :
  count_status value df_filtered =
  List.length (filter (fun r => eq_str (Status (fields r)) value) df_filtered).
Proof. unfold count_status. now rewrite map_map, select_map. Qed.

Lemma count_categoria_eq (value : string) (df_filtered : list row) :
  count_categoria value df_filtered =
  List.length (filter (fun r => String.eqb (Categoria r) value) df_filtered).
Proof. unfold count_categoria. now rewrite map_map, select_map. Qed.

Lemma wip_eq (df_filtered : list row) :
  wip df_filtered =
  List.length
    (filter (fun r => negb (isin [Str "Done"; Str "Canceled"; Str "Cancelado"]
                              (Status (fields r)))) df_filtered).
Proof. unfold wip, mask_not. now rewrite !map_map, select_map. Qed.

(** X1.  The work-in-progress count and the number of rows whose status is
    Done, Canceled or Cancelado add up to the size of the view; so the
    Done count and the work in progress together never exceed the total. *)
Theorem wip_and_closed_partition (df_filtered : list row) :
  (wip df_filtered +
   List.length
     (filter (fun r => isin [Str "Done"; Str "Canceled"; Str "Cancelado"]
                         (Status (fields r))) df_filtered) =
   List.length df_filtered)%nat /\
  (count_status "Done" df_filtered + wip df_filtered <= List.length df_filtered)%nat.
Proof.
  rewrite wip_eq, count_status_eq.
  pose proof (filter_split_length
                (fun r => isin [Str "Done"; Str "Canceled"; Str "Cancelado"]
                            (Status (fields r))) df_filtered) as Hs.
  pose proof (filter_length_implies
                (fun r => eq_str (Status (fields r)) "Done")
                (fun r => isin [Str "Done"; Str "Canceled"; Str "Cancelado"]
                            (Status (fields r))) df_filtered) as Hd.
  split; [lia|].
  assert (forall r : row, eq_str (Status (fields r)) "Done" = true ->
            isin [Str "Done"; Str "Canceled"; Str "Cancelado"]
              (Status (fields r)) = true) as Himp.
  { intros r H. destruct (Status (fields r)) as [s|]; simpl in *; [|discriminate].
    now rewrite H. }
  specialize (Hd Himp). lia.
Qed.

Lemma percent_bounds (a b : nat) :
  (a <= b)%nat -> (0 < b)%nat ->
  exists q, py_div a b = ok q /\ (0 <= q * 100)%Q /\ (q * 100 <= 100)%Q.
Proof.
  intros Hab Hb. destruct b as [|b]; [lia|].
  eexists. split; [reflexivity|].
  set (x := inject_Z (Z.of_nat a)). set (y := inject_Z (Z.of_nat (S b))).
  assert (Hx : (0 <= x)%Q).
  { unfold x. rewrite <- (Zle_Qle 0). lia. }
  assert (Hy : (0 < y)%Q).
  { unfold y. rewrite <- (Zlt_Qlt 0). lia. }
  assert (Hxy : (x <= y)%Q).
  { unfold x, y. rewrite <- Zle_Qle. lia. }
  assert (H0 : (0 <= x / y)%Q).
  { apply Qle_shift_div_l; [exact Hy|]. now rewrite Qmult_0_l. }
  assert (H1 : (x / y <= 1)%Q).
  { apply Qle_shift_div_r; [exact Hy|]. now rewrite Qmult_1_l. }
  split.
  - apply Qmult_le_0_compat; [exact H0 | discriminate].
  - setoid_replace (100 : Q) with (1 * 100)%Q at 2 by reflexivity.
    apply Qmult_le_compat_r; [exact H1 | discriminate].
Qed.

(** X2.  On a view that is not empty the completion rate and the bug
    percentage are both computed without error and lie between 0 and
    100. *)
Theorem percentages_between_0_and_100 (df_filtered : list row)
  (resolved_df : list resolved_row) :
  df_filtered <> [] ->
  exists k taxa,
    headline df_filtered resolved_df = ok k /\
    bug_rate (k_bugs k) (k_total_issues k) = ok taxa /\
    (0 <= k_completion_rate k)%Q /\ (k_completion_rate k <= 100)%Q /\
    (0 <= taxa)%Q /\ (taxa <= 100)%Q.
Proof.
  intros Hne.
  assert (Hpos : (0 < List.length df_filtered)%nat).
  { destruct df_filtered; [contradiction | simpl; lia]. }
  assert (Hdone : (count_status "Done" df_filtered <= List.length df_filtered)%nat).
  { rewrite count_status_eq. apply filter_length_le. }
  assert (Hbugs : (count_categoria "Bugs" df_filtered <= List.length df_filtered)%nat).
  { rewrite count_categoria_eq. apply filter_length_le. }
  destruct (percent_bounds _ _ Hdone Hpos) as [q [Hq [Hq0 Hq1]]].
  destruct (percent_bounds _ _ Hbugs Hpos) as [p [Hp [Hp0 Hp1]]].
  destruct (ratio_valor_divida_ok (count_categoria "Histórias" df_filtered)
              (count_categoria "Bugs" df_filtered)) as [ratio Hratio].
  unfold headline, completion_rate.
  apply Nat.ltb_lt in Hpos. rewrite Hpos, Hq, Hratio. simpl.
  eexists. exists (p * 100)%Q. split; [reflexivity|]. simpl.
  unfold bug_rate. rewrite Hp. simpl. repeat split; assumption.
Qed.

Lemma percentages_between_0_and_100_witness :
  exists k taxa,
    headline sample_df sample_resolved_df = ok k /\
    bug_rate (k_bugs k) (k_total_issues k) = ok taxa /\
    (0 <= k_completion_rate k)%Q /\ (k_completion_rate k <= 100)%Q /\
    (0 <= taxa)%Q /\ (taxa <= 100)%Q.
Proof.
  apply (percentages_between_0_and_100 sample_df sample_resolved_df).
  discriminate.
Defined.

Example sample_headline :
  exists k, headline sample_df sample_resolved_df = ok k /\
            (k_total_issues k, k_done_issues k, k_historias k, k_bugs k, k_wip k) =
              (4, 2, 1, 2, 1)%nat /\
            k_completion_rate k == 50 /\ k_ratio_valor_divida k == 1 # 2.
Proof. eexists. repeat split. Qed.

(** X3.  In any filtered view of an ingested file the three categories
    cover the rows: stories, bugs and others add up to the total. *)
Theorem categories_partition_view (file : list csv_row) (df : list row)
  (resolved_df : list resolved_row) (date_range : list Z)
  (selected_status selected_tipo : list cell) :
  load_data (Some file) = Some (df, resolved_df) ->
  let view := apply_filters date_range selected_status selected_tipo df in
  (count_categoria "Histórias" view + count_categoria "Bugs" view +
   count_categoria "Outros" view = List.length view)%nat.
Proof.
  intros Hl view.
  assert (Hcat : forall r, In r view -> Categoria r = categoria (Issue_Type (fields r))).
  { intros r Hr. apply apply_filters_incl in Hr.
    rewrite load_data_eq in Hl. injection Hl as <- _.
    now apply (in_df_categoria file). }
  rewrite !count_categoria_eq. clearbody view.
  induction view as [|r view IH]; [reflexivity|].
  assert (IH' := IH (fun x Hx => Hcat x (or_intror Hx))).
  specialize (Hcat r (or_introl eq_refl)). simpl.
  rewrite Hcat. unfold categoria.
  destruct (eq_str (Issue_Type (fields r)) "História"); simpl; [lia|].
  destruct (contains "Bug" (py_str (Issue_Type (fields r)))); simpl; lia.
Qed.

Lemma categories_partition_view_witness :
  (count_categoria "Histórias" sample_df + count_categoria "Bugs" sample_df +
   count_categoria "Outros" sample_df = 4)%nat.
Proof.
  apply (categories_partition_view sample_file sample_df sample_resolved_df
           [] [] []).
  reflexivity.
Defined.

(** ** Outcomes of a run *)



(** ** More on the filters *)

Lemma filter_idem {A} (p : A -> bool) (l : list A) :
  filter p (filter p l) = filter p l.
Proof.
  rewrite filter_filter. apply filter_ext. intros x. now destruct (p x).
Qed.

(** X5.  Filtering is idempotent: applying the same selection to a view it
    produced changes nothing. *)
Theorem apply_filters_idempotent (date_range : list Z)
  (selected_status selected_tipo : list cell) (df : list row) :
  apply_filters date_range selected_status selected_tipo
    (apply_filters date_range selected_status selected_tipo df) =
  apply_filters date_range selected_status selected_tipo df.
Proof. rewrite !apply_filters_eq. apply filter_idem. Qed.

Lemma todos_not_in_false (selected : list cell) :
  In (Str "Todos") selected -> todos_not_in selected = false.
Proof.
  intros H. unfold todos_not_in. apply negb_false_iff, existsb_exists.
  exists (Str "Todos"). split; [exact H | reflexivity].
Qed.

Lemma todos_not_in_true (selected : list cell) :
  ~ In (Str "Todos") selected -> todos_not_in selected = true.
Proof.
  intros H. unfold todos_not_in. apply negb_true_iff.
  destruct (existsb _ selected) eqn:He; [|reflexivity].
  apply existsb_exists in He as [x [Hx Heq]].
  destruct x as [s|]; simpl in Heq; [|discriminate].
  apply String.eqb_eq in Heq. subst. contradiction.
Qed.

(** X6.  A status selection that is not empty and does not hold the
    sentinel keeps exactly the rows whose status is one of the selected
    values, whatever the category selection; so every row of the final
    view has a selected status. *)
Theorem status_selection_members (selected_status : list cell) (df : list row) :
  selected_status <> [] -> ~ In (Str "Todos") selected_status ->
  (forall r, In r (filter_status selected_status df) <->
             In r df /\ In (Status (fields r)) selected_status) /\
  (forall date_range selected_tipo r,
     In r (apply_filters date_range selected_status selected_tipo df) ->
     In (Status (fields r)) selected_status).
Proof.
  intros Hne Hno.
  assert (Hk : forall r, keep_status selected_status r = true <->
                         In (Status (fields r)) selected_status).
  { intros r. unfold keep_status. rewrite (todos_not_in_true _ Hno).
    destruct selected_status; [contradiction|]. simpl truthy. simpl andb.
    apply isin_In. }
  split.
  - intros r. rewrite filter_status_eq, filter_In, Hk. reflexivity.
  - intros date_range selected_tipo r. rewrite apply_filters_eq, filter_In.
    intros [_ H]. apply andb_true_iff in H as [H _].
    apply andb_true_iff in H as [_ H]. now apply Hk.
Qed.

Lemma status_selection_members_witness :
  In (Status (fields (with_categoria (ingest_row story_row)))) [Str "Done"].
Proof.
  destruct (status_selection_members [Str "Done"] sample_df) as [_ H].
  - discriminate.
  - simpl. intros [H | []]. discriminate.
  - apply (H [] [Str "Todos"]). simpl. auto.
Defined.

(** X7.  The sentinel wins over concrete values: a selection that holds
    "Todos" next to other values keeps every row. *)
Theorem todos_overrides_selection (selected : list cell) (df : list row) :
  In (Str "Todos") selected ->
  filter_status selected df = df /\ filter_tipo selected df = df.
Proof.
  intros H. unfold filter_status, filter_tipo.
  rewrite (todos_not_in_false _ H). split; reflexivity.
Qed.

Lemma todos_overrides_selection_witness :
  filter_status [Str "Done"; Str "Todos"] sample_df = sample_df /\
  filter_tipo [Str "Done"; Str "Todos"] sample_df = sample_df.
Proof.
  apply (todos_overrides_selection [Str "Done"; Str "Todos"] sample_df).
  simpl. auto.
Defined.

Lemma series_min_le (col : list (option Z)) (m v : Z) :
  series_min col = Some m -> In (Some v) col -> (m <= v)%Z.
Proof.
  revert m; induction col as [|x col IH]; intros m Hm Hin; [contradiction|].
  simpl in Hm. destruct x as [w|].
  - destruct (series_min col) as [m'|] eqn:Hs.
    + injection Hm as <-. destruct Hin as [Heq | Hin].
      * injection Heq as ->. lia.
      * specialize (IH m' eq_refl Hin). lia.
    + injection Hm as <-. destruct Hin as [Heq | Hin].
      * injection Heq as ->. lia.
      * destruct (series_min_some col v Hin) as [m' Hm']. congruence.
  - destruct Hin as [Heq | Hin]; [discriminate | now apply IH].
Qed.

Lemma series_max_ge (col : list (option Z)) (m v : Z) :
  series_max col = Some m -> In (Some v) col -> (v <= m)%Z.
Proof.
  revert m; induction col as [|x col IH]; intros m Hm Hin; [contradiction|].
  simpl in Hm. destruct x as [w|].
  - destruct (series_max col) as [m'|] eqn:Hs.
    + injection Hm as <-. destruct Hin as [Heq | Hin].
      * injection Heq as ->. lia.
      * specialize (IH m' eq_refl Hin). lia.
    + injection Hm as <-. destruct Hin as [Heq | Hin].
      * injection Heq as ->. lia.
      * destruct (series_max_some col v Hin) as [m' Hm']. congruence.
  - destruct Hin as [Heq | Hin]; [discriminate | now apply IH].
Qed.

(** X8.  The default date range, from the day of the earliest created
    timestamp to the day of the latest, keeps every row whose created
    timestamp is not null and drops every row whose created timestamp is
    null. *)
Theorem default_date_range_keeps_dated_rows (df : list row) (earliest latest : Z) :
  series_min (map (fun r => Created (fields r)) df) = Some earliest ->
  series_max (map (fun r => Created (fields r)) df) = Some latest ->
  filter_date [date_of earliest; date_of latest] df =
  filter (fun r => notna (Created (fields r))) df.
Proof.
  intros Hmin Hmax. rewrite filter_date_eq.
  apply filter_ext_in. intros r Hr. unfold keep_date.
  destruct (Created (fields r)) as [t|] eqn:Ht; [|reflexivity].
  assert (Hin : In (Some t) (map (fun r => Created (fields r)) df)).
  { rewrite <- Ht. now apply (in_map (fun r => Created (fields r))). }
  pose proof (series_min_le _ _ _ Hmin Hin) as H0.
  pose proof (series_max_ge _ _ _ Hmax Hin) as H1.
  unfold date_of. simpl.
  apply andb_true_iff. split; apply Z.leb_le; apply Z.div_le_mono; lia.
Qed.

Lemma default_date_range_keeps_dated_rows_witness :
  filter_date [date_of (20495 * 86400 + 32400); date_of (20499 * 86400 + 29700)]%Z
    sample_df =
  filter (fun r => notna (Created (fields r))) sample_df.
Proof.
  apply (default_date_range_keeps_dated_rows sample_df); reflexivity.
Defined.

(** ** Widget options *)

Lemma isin_unique_from (seen col : list cell) (x : cell) :
  isin seen x || isin (unique_from seen col) x = isin seen x || isin col x.
Proof.
  revert seen; induction col as [|y col IH]; intros seen; simpl; [reflexivity|].
  destruct (isin seen y) eqn:Hy.
  - rewrite IH. destruct (cell_eqb x y) eqn:Hxy; [|reflexivity].
    apply cell_eqb_eq in Hxy. subst. rewrite Hy. reflexivity.
  - simpl. specialize (IH (y :: seen)). simpl in IH.
    destruct (cell_eqb x y); simpl in *; [now rewrite !orb_true_r|].
    exact IH.
Qed.

Lemma isin_unique (col : list cell) (x : cell) :
  isin (unique col) x = isin col x.
Proof. exact (isin_unique_from [] col x). Qed.

Lemma filter_all {A} (p : A -> bool) (l : list A) :
  (forall x, In x l -> p x = true) -> filter p l = l.
Proof.
  induction l as [|x l IH]; intros H; simpl; [reflexivity|].
  rewrite (H x (or_introl eq_refl)), IH; [reflexivity|].
  intros y Hy. apply H. now right.
Qed.

(** X9.  Ticking every concrete option of the status picker and of the
    category picker, without the sentinel, gives the same view as the
    default selection ["Todos"]: no row is lost, also not a row whose status
    is missing. *)
Theorem all_options_same_as_todos (date_range : list Z) (df : list row) :
  apply_filters date_range (tl (status_options df)) (tl (tipo_options df)) df =
  apply_filters date_range [Str "Todos"] [Str "Todos"] df /\
  apply_filters date_range [Str "Todos"] [Str "Todos"] df = filter_date date_range df.
Proof.
  split; [|reflexivity].
  rewrite !apply_filters_eq. apply filter_ext_in. intros r Hr.
  assert (Hs : keep_status (tl (status_options df)) r = true).
  { unfold keep_status.
    destruct (todos_not_in _ && truthy _); [|reflexivity].
    simpl. rewrite isin_unique. apply isin_In.
    now apply (in_map (fun r => Status (fields r))). }
  assert (Ht : keep_tipo (tl (tipo_options df)) r = true).
  { unfold keep_tipo.
    destruct (todos_not_in _ && truthy _); [|reflexivity].
    simpl. rewrite isin_unique. apply isin_In.
    now apply (in_map (fun r => Str (Categoria r))). }
  rewrite Hs, Ht. reflexivity.
Qed.

Example sample_options :
  status_options sample_df = [Str "Todos"; Str "Done"; Str "To Do"; Str "Canceled"] /\
  tipo_options sample_df = [Str "Todos"; Str "Histórias"; Str "Bugs"; Str "Outros"].
Proof. split; reflexivity. Qed.

(** ** Chart inputs *)

Lemma filter_length_perm {A} (p : A -> bool) (l l' : list A) :
  Permutation l l' -> List.length (filter p l) = List.length (filter p l').
Proof.
  induction 1 as [|x l l' _ IH|x y l|l l' l'' _ IH1 _ IH2]; simpl.
  - reflexivity.
  - destruct (p x); simpl; now rewrite IH.
  - destruct (p x), (p y); reflexivity.
  - now rewrite IH1.
Qed.

Lemma filter_map_length {A B} (f : A -> B) (p : B -> bool) (l : list A) :
  List.length (filter p (map f l)) = List.length (filter (fun x => p (f x)) l).
Proof.
  induction l as [|x l IH]; simpl; [reflexivity|].
  destruct (p (f x)); simpl; now rewrite IH.
Qed.

(** X10.  On a view that is not empty the cumulative-flow series end at
    the headline numbers: the last running total is the total count and
    the last running Done count is the Done count. *)
Theorem cumulative_flow_ends_at_headline (df_filtered : list row) :
  df_filtered <> [] ->
  let f := cumulative_flow df_filtered in
  let n := List.length df_filtered in
  nth (n - 1) (Cumulative_Total f) 0%nat = n /\
  nth (n - 1) (Cumulative_Done f) 0%nat = count_status "Done" df_filtered.
Proof.
  intros Hne. cbv zeta.
  assert (Hpos : (0 < List.length df_filtered)%nat).
  { destruct df_filtered; [contradiction | simpl; lia]. }
  unfold cumulative_flow, cumsum. cbn [Cumulative_Total Cumulative_Done].
  pose proof (sort_values_created_length df_filtered) as Hlen.
  pose proof (sort_values_created_perm df_filtered) as Hperm.
  set (sorted := sort_values_created df_filtered) in *.
  set (col := map (fun x => eq_str x "Done") (map (fun r => Status (fields r)) sorted)).
  assert (Hcol : List.length col = List.length df_filtered).
  { unfold col. now rewrite !length_map. }
  split.
  - rewrite seq_nth by lia. lia.
  - rewrite cumsum_from_nth by lia.
    replace (S (List.length df_filtered - 1)) with (List.length col) by lia.
    rewrite firstn_all, Nat.add_0_l. unfold col.
    rewrite map_map, filter_map_length, count_status_eq.
    symmetry. now apply filter_length_perm.
Qed.

Lemma cumulative_flow_ends_at_headline_witness :
  nth 3 (Cumulative_Total (cumulative_flow sample_df)) 0%nat = 4%nat /\
  nth 3 (Cumulative_Done (cumulative_flow sample_df)) 0%nat =
    count_status "Done" sample_df.
Proof.
  apply (cumulative_flow_ends_at_headline sample_df). discriminate.
Defined.

Lemma in_unique_from (seen col : list cell) (x : cell) :
  In x (unique_from seen col) -> In x col.
Proof.
  revert seen; induction col as [|y col IH]; intros seen; simpl; [tauto|].
  destruct (isin seen y); simpl.
  - intros H. right. eapply IH, H.
  - intros [-> | H]; [now left | right; eapply IH, H].
Qed.

Lemma in_insert_by_count (p q : cell * nat) (l : list (cell * nat)) :
  In q (insert_by_count p l) -> q = p \/ In q l.
Proof.
  induction l as [|x l IH]; simpl.
  - intros [<- | []]. now left.
  - destruct (snd x <=? snd p)%nat; simpl.
    + intros [<- | H]; [now left | now right].
    + intros [<- | H]; [right; now left|].
      destruct (IH H) as [-> | H']; [now left | right; now right].
Qed.

Lemma in_value_counts (col : list cell) (p : cell * nat) :
  In p (value_counts col) ->
  exists s, fst p = Str s /\ In (Str s) col /\ snd p = count_of (Str s) col.
Proof.
  unfold value_counts.
  set (l := map (fun v => (v, count_of v col)) (unique (filter not_nan col))).
  assert (Hl : forall q, In q l ->
            exists s, fst q = Str s /\ In (Str s) col /\ snd q = count_of (Str s) col).
  { intros q Hq. unfold l in Hq. apply in_map_iff in Hq as [v [<- Hv]].
    apply in_unique_from, filter_In in Hv as [Hv Hn].
    destruct v as [s|]; [|discriminate]. now exists s. }
  clearbody l. induction l as [|q l IH]; simpl; [contradiction|].
  intros H. apply in_insert_by_count in H as [-> | H].
  - apply Hl. now left.
  - apply IH; [|exact H]. intros q' Hq'. apply Hl. now right.
Qed.

Lemma count_of_pos (v : cell) (col : list cell) :
  In v col -> (0 < count_of v col)%nat.
Proof.
  unfold count_of. induction col as [|x col IH]; [contradiction|].
  intros [-> | Hin]; simpl.
  - replace (cell_eqb v v) with true by (symmetry; now apply cell_eqb_eq).
    simpl. lia.
  - destruct (cell_eqb v x); simpl; [lia | now apply IH].
Qed.

Lemma combine_map {A B C} (f : A -> B) (g : A -> C) (l : list A) :
  combine (map f l) (map g l) = map (fun x => (f x, g x)) l.
Proof. induction l as [|x l IH]; simpl; [reflexivity | now rewrite IH]. Qed.

(** X11.  In the top-assignees chart there are at most ten assignees,
    none of them the missing value, and for each the Done bar and the
    in-progress bar together are as long as the number of rows of that
    assignee. *)
Theorem top_assignees_bars_add_up (df_filtered : list row) :
  let a := top_assignees df_filtered in
  (List.length (assignee_counts a) <= 10)%nat /\
  (forall p, In p (assignee_counts a) -> fst p <> NaN /\ (0 < snd p)%nat) /\
  map (fun dp => (fst dp + snd dp)%nat)
      (combine (assignee_done a) (assignee_progress a)) =
  map snd (assignee_counts a).
Proof.
  cbv zeta. unfold top_assignees.
  cbn [assignee_counts assignee_done assignee_progress].
  set (col := map (fun r => Assignee (fields r)) df_filtered).
  set (top := firstn 10 (value_counts col)).
  assert (Htop : forall p, In p top ->
            exists s, fst p = Str s /\ In (Str s) col /\ snd p = count_of (Str s) col).
  { intros p Hp. apply in_value_counts. unfold top in Hp.
    rewrite <- (firstn_skipn 10 (value_counts col)). apply in_or_app. now left. }
  split; [apply firstn_le_length|]. split.
  - intros p Hp. destruct (Htop p Hp) as [s [Hs [Hin Hc]]].
    split; [rewrite Hs; discriminate|].
    rewrite Hc. now apply count_of_pos.
  - rewrite combine_map, !map_map. apply map_ext_in. intros p Hp.
    destruct (Htop p Hp) as [s [Hs [_ Hc]]]. cbn [fst snd].
    rewrite Hc, Hs. unfold mask_not, col, count_of.
    rewrite !map_map, !mask_and_map, !select_map, filter_map_length.
    clear. induction df_filtered as [|r df IH]; simpl; [reflexivity|].
    destruct (Assignee (fields r)) as [t|]; simpl.
    + rewrite (String.eqb_sym t s).
      destruct (String.eqb s t); simpl in IH |- *; [|exact IH].
      destruct (eq_str (Status (fields r)) "Done"); simpl in IH |- *; lia.
    + exact IH.
Qed.

Example sample_top_assignees :
  top_assignees sample_df =
  {| assignee_counts := [(Str "Ana Souza", 4%nat)];
     assignee_done := [2%nat];
     assignee_progress := [2%nat] |}.
Proof. reflexivity. Qed.

Lemma list_sum_perm (l l' : list nat) :
  Permutation l l' -> list_sum l = list_sum l'.
Proof.
  induction 1; simpl; lia.
Qed.

Lemma insert_by_count_perm (p : cell * nat) (l : list (cell * nat)) :
  Permutation (p :: l) (insert_by_count p l).
Proof.
  induction l as [|x l IH]; simpl; [apply Permutation_refl|].
  destruct (snd x <=? snd p)%nat; [apply Permutation_refl|].
  eapply perm_trans; [apply perm_swap | now apply perm_skip].
Qed.

Lemma value_counts_perm (col : list cell) :
  Permutation (map (fun v => (v, count_of v col)) (unique (filter not_nan col)))
              (value_counts col).
Proof.
  unfold value_counts.
  generalize (map (fun v => (v, count_of v col)) (unique (filter not_nan col))).
  intros l. induction l as [|p l IH]; simpl; [apply perm_nil|].
  eapply perm_trans; [apply perm_skip, IH | apply insert_by_count_perm].
Qed.

Lemma insert_by_count_sorted (p : cell * nat) (l : list (cell * nat)) :
  Sorted (fun a b => (snd b <= snd a)%nat) l ->
  Sorted (fun a b => (snd b <= snd a)%nat) (insert_by_count p l).
Proof.
  induction l as [|x l IH]; simpl; intros Hs.
  - repeat constructor.
  - destruct (snd x <=? snd p)%nat eqn:Hle.
    + apply Nat.leb_le in Hle. constructor; [exact Hs | now constructor].
    + apply Nat.leb_gt in Hle. inversion Hs as [|? ? Hs' Hhd]; subst.
      constructor; [now apply IH|].
      destruct l as [|y l]; simpl.
      * constructor. lia.
      * destruct (snd y <=? snd p)%nat; constructor; [lia|].
        now inversion Hhd.
Qed.

Lemma unique_from_nodup (seen col : list cell) :
  NoDup (unique_from seen col) /\
  (forall x, In x (unique_from seen col) -> ~ In x seen).
Proof.
  revert seen; induction col as [|y col IH]; intros seen; simpl.
  - split; [constructor | tauto].
  - destruct (isin seen y) eqn:Hy; [apply IH|].
    destruct (IH (y :: seen)) as [Hnd Hout]. split.
    + constructor; [|exact Hnd]. intros Hin. apply (Hout y Hin). now left.
    + intros x [<- | Hin].
      * intros Hs. apply isin_In in Hs. congruence.
      * intros Hs. apply (Hout x Hin). now right.
Qed.

Lemma count_of_cons (v x : cell) (col : list cell) :
  count_of v (x :: col) = ((if cell_eqb v x then 1 else 0) + count_of v col)%nat.
Proof. unfold count_of. simpl. now destruct (cell_eqb v x). Qed.

(** The counts of pairwise distinct values add up to the number of cells
    holding one of them. *)
Lemma sum_of_counts (values col : list cell) :
  NoDup values ->
  list_sum (map (fun v => count_of v col) values) =
  List.length (filter (isin values) col).
Proof.
  intros Hnd. induction col as [|x col IH]; simpl.
  - induction values as [|v values IHv]; simpl; [reflexivity|].
    apply IHv. now inversion Hnd.
  - assert (Hx : list_sum (map (fun v => count_of v (x :: col)) values) =
                 ((if isin values x then 1 else 0) +
                  list_sum (map (fun v => count_of v col) values))%nat).
    { clear IH. induction values as [|v values IHv]; simpl; [reflexivity|].
      inversion Hnd as [|? ? Hnot Hnd']; subst.
      rewrite count_of_cons, (IHv Hnd').
      destruct (cell_eqb x v) eqn:Hxv.
      - apply cell_eqb_eq in Hxv. subst v.
        replace (cell_eqb x x) with true by (symmetry; now apply cell_eqb_eq).
        destruct (isin values x) eqn:Hin; [|simpl; lia].
        apply isin_In in Hin. contradiction.
      - destruct (cell_eqb v x) eqn:Hvx.
        + apply cell_eqb_eq in Hvx. subst v.
          replace (cell_eqb x x) with true in Hxv
            by (symmetry; now apply cell_eqb_eq). discriminate.
        + simpl. lia. }
    rewrite Hx, IH. destruct (isin values x); simpl; lia.
Qed.

Lemma value_counts_sum (col : list cell) :
  list_sum (map snd (value_counts col)) = List.length (filter not_nan col).
Proof.
  rewrite <- (list_sum_perm _ _ (Permutation_map snd (value_counts_perm col))).
  rewrite map_map. cbn [snd].
  rewrite (sum_of_counts (unique (filter not_nan col)) col)
    by apply unique_from_nodup.
  f_equal. apply filter_ext_in. intros x Hx.
  rewrite isin_unique. destruct x as [s|]; simpl.
  - apply isin_In, filter_In. now split.
  - destruct (isin (filter not_nan col) NaN) eqn:Hin; [|reflexivity].
    apply isin_In, filter_In in Hin as [_ Hn]. discriminate.
Qed.

(** X12.  The inputs of the composition, status and priority charts: the
    category counts add up to the size of the view, the status and
    priority counts to the number of rows where that field is not missing;
    no value is listed twice and the counts never increase down the
    list. *)
Theorem chart_counts_add_up (df_filtered : list row) :
  list_sum (map snd (categoria_counts df_filtered)) = List.length df_filtered /\
  list_sum (map snd (status_counts df_filtered)) =
    List.length (filter (fun r => not_nan (Status (fields r))) df_filtered) /\
  list_sum (map snd (priority_counts df_filtered)) =
    List.length (filter (fun r => not_nan (Priority (fields r))) df_filtered) /\
  (forall counts,
     In counts [categoria_counts df_filtered; status_counts df_filtered;
                priority_counts df_filtered] ->
     NoDup (map fst counts) /\ Sorted (fun a b => (snd b <= snd a)%nat) counts).
Proof.
  unfold categoria_counts, status_counts, priority_counts.
  rewrite !value_counts_sum, !filter_map_length. repeat split.
  - cbn [not_nan]. now rewrite filter_true.
  - destruct H as [<- | [<- | [<- | []]]];
      (eapply Permutation_NoDup;
       [apply Permutation_map, value_counts_perm|];
       rewrite map_map; cbn [fst]; rewrite map_id;
       apply unique_from_nodup).
  - destruct H as [<- | [<- | [<- | []]]];
      (unfold value_counts;
       match goal with |- context [fold_right _ _ ?l] => generalize l end;
       intros l; induction l as [|p l IH]; simpl;
       [constructor | now apply insert_by_count_sorted]).
Qed.

Example sample_chart_counts :
  categoria_counts sample_df =
    [(Str "Bugs", 2%nat); (Str "Histórias", 1%nat); (Str "Outros", 1%nat)] /\
  status_counts sample_df =
    [(Str "Done", 2%nat); (Str "To Do", 1%nat); (Str "Canceled", 1%nat)].
Proof. split; reflexivity. Qed.

(** ** Monthly throughput *)

Lemma compare_lt_trans (a b c : string) :
  String.compare a b = Lt -> String.compare b c = Lt -> String.compare a c = Lt.
Proof.
  intros H1 H2. apply String_as_OT.cmp_lt.
  apply String_as_OT.cmp_lt in H1. apply String_as_OT.cmp_lt in H2.
  now apply (String_as_OT.lt_trans a b c).
Qed.

Lemma compare_lt_neq (a b : string) : String.compare a b = Lt -> a <> b.
Proof.
  intros H Heq. subst.
  assert (He : String.compare b b = Eq) by now apply String_as_OT.cmp_eq.
  congruence.
Qed.

Lemma compare_gt_lt (a b : string) :
  String.compare a b = Gt -> String.compare b a = Lt.
Proof. intros H. rewrite String.compare_antisym, H. reflexivity. Qed.

Lemma keys_above_trans (a b : string) (groups : list (string * nat)) :
  String.compare a b = Lt -> keys_above b groups -> keys_above a groups.
Proof.
  intros Hab. unfold keys_above. rewrite !Forall_forall.
  intros H g Hg. eapply compare_lt_trans; [exact Hab | now apply H].
Qed.

Lemma bump_sum (k : string) (groups : list (string * nat)) :
  list_sum (map snd (bump k groups)) = S (list_sum (map snd groups)).
Proof.
  induction groups as [|[k' n] groups IH]; simpl; [reflexivity|].
  destruct (String.compare k k'); simpl; [reflexivity | reflexivity|].
  rewrite IH. lia.
Qed.

Lemma bump_keys_above (a k : string) (groups : list (string * nat)) :
  String.compare a k = Lt -> keys_above a groups -> keys_above a (bump k groups).
Proof.
  intros Hak. induction groups as [|[k' n] groups IH]; simpl; intros Ha.
  - now repeat constructor.
  - inversion Ha as [|? ? Hk' Ha']; subst.
    destruct (String.compare k k').
    + constructor; assumption.
    + constructor; [exact Hak | exact Ha].
    + constructor; [exact Hk' | now apply IH].
Qed.

Lemma bump_ascending (k : string) (groups : list (string * nat)) :
  ascending groups -> ascending (bump k groups).
Proof.
  induction groups as [|[k' n] groups IH]; simpl; intros Hs.
  - repeat constructor.
  - inversion Hs as [|? ? Hab Hs']; subst. simpl in Hab.
    destruct (String.compare k k') eqn:Hc.
    + now constructor.
    + constructor; [|exact Hs]. constructor; [exact Hc|].
      now apply (keys_above_trans k k').
    + constructor; [|now apply IH].
      apply bump_keys_above; [now apply compare_gt_lt | exact Hab].
Qed.

(** What [bump] does to the entries of an ascending table. *)
Lemma in_bump (k : string) (groups : list (string * nat)) (k0 : string) (n0 : nat) :
  ascending groups ->
  (In (k0, n0) (bump k groups) <->
   (k0 = k /\ ((n0 = 1%nat /\ ~ In k (map fst groups)) \/
               (exists m, n0 = S m /\ In (k, m) groups))) \/
   (k0 <> k /\ In (k0, n0) groups)).
Proof.
  induction groups as [|[k' n] groups IH]; simpl; intros Hs.
  - split.
    + intros [H | []]. injection H as <- <-. left. split; [reflexivity|]. left. tauto.
    + intros [[-> [[-> _] | [m [_ []]]]] | [_ []]]. now left.
  - inversion Hs as [|? ? Hab Hs']; subst. simpl in Hab.
    assert (Hfresh : forall x m, In (x, m) groups -> x <> k').
    { intros x m Hx Heq. subst x. unfold keys_above in Hab.
      rewrite Forall_forall in Hab. specialize (Hab _ Hx). simpl in Hab.
      now apply compare_lt_neq in Hab. }
    destruct (String.compare k k') eqn:Hc.
    + apply String_as_OT.cmp_eq in Hc. subst k'. simpl. split.
      * intros [H | H].
        -- injection H as <- <-. left. split; [reflexivity|]. right.
           exists n. split; [reflexivity | now left].
        -- right. split; [now apply (Hfresh k0 n0) | now right].
      * intros [[-> [[-> Hno] | [m [-> [H | H]]]]] | [Hne [H | H]]].
        -- exfalso. apply Hno. now left.
        -- injection H as ->. now left.
        -- exfalso. now apply (Hfresh k m).
        -- injection H as <- <-. contradiction.
        -- now right.
    + assert (Hout : forall x m, In (x, m) ((k', n) :: groups) -> x <> k).
      { intros x m [H | H] Heq; subst x.
        - injection H as <- _. apply compare_lt_neq in Hc. contradiction.
        - unfold keys_above in Hab. rewrite Forall_forall in Hab.
          specialize (Hab _ H). simpl in Hab.
          pose proof (compare_lt_trans _ _ _ Hc Hab) as Hkk.
          now apply compare_lt_neq in Hkk. }
      simpl. split.
      * intros [H | H].
        -- injection H as <- <-. left. split; [reflexivity|]. left.
           split; [reflexivity|]. intros [Heq | Hin].
           ++ apply compare_lt_neq in Hc. congruence.
           ++ apply in_map_iff in Hin as [[x m] [Hx Hin]].
              simpl in Hx. subst x. now apply (Hout k m (or_intror Hin)).
        -- right. split; [|exact H]. destruct H as [H | H].
           ++ injection H as <- _. intros Heq. apply compare_lt_neq in Hc. congruence.
           ++ now apply (Hout k0 n0 (or_intror H)).
      * intros [[-> [[-> _] | [m [_ H]]]] | [_ H]].
        -- now left.
        -- exfalso. now apply (Hout k m H).
        -- now right.
    + assert (Hne : k' <> k).
      { apply compare_gt_lt in Hc. now apply compare_lt_neq in Hc. }
      simpl. rewrite (IH Hs'). split.
      * intros [H | [[-> [[-> Hno] | [m [-> H]]]] | [Hk H]]].
        -- injection H as <- <-. right. split; [exact Hne | now left].
        -- left. split; [reflexivity|]. left. split; [reflexivity|].
           intros [Heq | Hin]; [contradiction | now apply Hno].
        -- left. split; [reflexivity|]. right. exists m. split; [reflexivity | now right].
        -- right. split; [exact Hk | now right].
      * intros [[-> [[-> Hno] | [m [-> [H | H]]]]] | [Hk [H | H]]].
        -- right. left. split; [reflexivity|]. left. split; [reflexivity|].
           intros Hin. apply Hno. now right.
        -- injection H as -> _. contradiction.
        -- right. left. split; [reflexivity|]. right. now exists m.
        -- now left.
        -- right. right. now split.
Qed.

Lemma groupby_size_ascending (keys : list string) : ascending (groupby_size keys).
Proof.
  induction keys as [|k keys IH]; simpl; [constructor | now apply bump_ascending].
Qed.

Lemma groupby_size_counts (keys : list string) (k : string) (n : nat) :
  In (k, n) (groupby_size keys) <->
  (0 < n)%nat /\ n = List.length (filter (String.eqb k) keys).
Proof.
  revert k n; induction keys as [|k' keys IH]; intros k n.
  - simpl. split; [tauto | intros [H ->]; simpl in H; lia].
  - change (groupby_size (k' :: keys)) with (bump k' (groupby_size keys)).
    rewrite (in_bump k' _ k n (groupby_size_ascending keys)). simpl.
    split.
    + intros [[-> [[-> Hno] | [m [-> Hin]]]] | [Hne Hin]].
      * rewrite String.eqb_refl. simpl. split; [lia|]. f_equal.
        destruct (List.length (filter (String.eqb k') keys)) as [|c] eqn:Hc;
          [reflexivity|].
        exfalso. apply Hno. apply in_map_iff. exists (k', S c). split; [reflexivity|].
        apply IH. split; [lia | now rewrite Hc].
      * rewrite String.eqb_refl. simpl. apply IH in Hin as [_ ->]. split; [lia | reflexivity].
      * apply String.eqb_neq in Hne. rewrite Hne. now apply IH.
    + destruct (String.eqb k k') eqn:Hk.
      * apply String.eqb_eq in Hk. subst k'. simpl. intros [_ ->].
        left. split; [reflexivity|].
        destruct (List.length (filter (String.eqb k) keys)) as [|c] eqn:Hc.
        -- left. split; [reflexivity|]. intros Hin.
           apply in_map_iff in Hin as [[x m] [Hx Hin]]. simpl in Hx. subst x.
           apply IH in Hin as [Hpos Hm]. lia.
        -- right. exists (S c). split; [reflexivity|]. apply IH. split; [lia | now rewrite Hc].
      * intros H. right. split; [now apply String.eqb_neq | now apply IH].
Qed.

Lemma groupby_size_sum (keys : list string) :
  list_sum (map snd (groupby_size keys)) = List.length keys.
Proof.
  induction keys as [|k keys IH]; simpl; [reflexivity|].
  now rewrite bump_sum, IH.
Qed.

Lemma month_label_rows (nat_text : cell) (label : string) (df : list row) :
  List.length
    (filter (String.eqb label)
       (map py_str
          (filter not_nan
             (map (fun r => month_cell nat_text (Created (fields r))) df)))) =
  List.length
    (filter (fun r => eq_cell (month_cell nat_text (Created (fields r))) (Str label))
       df).
Proof.
  induction df as [|r df IH]; [reflexivity|]. simpl.
  destruct (month_cell nat_text (Created (fields r))) as [s|]; simpl.
  - rewrite (String.eqb_sym s label).
    destruct (String.eqb label s); simpl; now rewrite IH.
  - exact IH.
Qed.

(** X13.  The monthly throughput table, whichever way the library writes
    the month of a missing created timestamp.  It has one entry per month
    label that occurs in the view, in ascending order of label, and the
    entry of a label counts the rows with that label.  The counts add up
    to the number of rows with a label: to the size of the view when
    every row has a created timestamp, or when the library writes the
    text "NaT" for a missing month; to the number of rows with a created
    timestamp when it leaves a missing month missing. *)
Theorem monthly_counts_cover_view (nat_text : cell) (df_filtered : list row) :
  let month := fun r => month_cell nat_text (Created (fields r)) in
  list_sum (map snd (monthly_counts nat_text df_filtered)) =
    List.length (filter (fun r => not_nan (month r)) df_filtered) /\
  ascending (monthly_counts nat_text df_filtered) /\
  (forall label n,
     In (label, n) (monthly_counts nat_text df_filtered) <->
     (0 < n)%nat /\
     n = List.length (filter (fun r => eq_cell (month r) (Str label)) df_filtered)) /\
  ((forall r, In r df_filtered -> Created (fields r) <> None) ->
   list_sum (map snd (monthly_counts nat_text df_filtered)) =
     List.length df_filtered) /\
  list_sum (map snd (monthly_counts (Str "NaT") df_filtered)) =
    List.length df_filtered /\
  list_sum (map snd (monthly_counts NaN df_filtered)) =
    List.length (filter (fun r => notna (Created (fields r))) df_filtered).
Proof.
  cbv zeta.
  assert (Hsum : forall nt,
            list_sum (map snd (monthly_counts nt df_filtered)) =
            List.length
              (filter (fun r => not_nan (month_cell nt (Created (fields r))))
                 df_filtered)).
  { intros nt. unfold monthly_counts.
    now rewrite groupby_size_sum, length_map, filter_map_length. }
  split; [apply Hsum|]. split; [apply groupby_size_ascending|]. split; [|split; [|split]].
  - intros label n. unfold monthly_counts. rewrite groupby_size_counts.
    rewrite (month_label_rows nat_text label df_filtered).
    reflexivity.
  - intros Hdated. rewrite Hsum. f_equal. apply filter_all.
    intros r Hr. specialize (Hdated r Hr).
    destruct (Created (fields r)); [reflexivity | contradiction].
  - rewrite Hsum. f_equal. apply filter_all.
    intros r _. now destruct (Created (fields r)).
  - rewrite Hsum. f_equal. apply filter_ext.
    intros r. now destruct (Created (fields r)).
Qed.

Example sample_monthly_counts :
  monthly_counts (Str "NaT") sample_df = [("2026-02", 3%nat); ("NaT", 1%nat)] /\
  monthly_counts NaN sample_df = [("2026-02", 3%nat)].
Proof. split; reflexivity. Qed.

(** ** The date format *)

Import Strptime.

Lemma some_inj {A} (x y : A) : Some x = Some y -> x = y.
Proof. intros H. now injection H. Qed.

Lemma is_digit_val (c : ascii) :
  is_digit c = true -> (0 <= digit_val c <= 9)%Z.
Proof.
  unfold is_digit, digit_val. rewrite andb_true_iff, !Nat.leb_le.
  generalize (nat_of_ascii c). intros n. lia.
Qed.

Lemma digit_val_zero (c : ascii) :
  is_digit c = true -> Ascii.eqb c "0" = false -> (1 <= digit_val c)%Z.
Proof.
  intros Hd Hz. pose proof (is_digit_val c Hd) as Hb.
  assert (Hne : digit_val c <> 0%Z); [|lia].
  unfold digit_val. intros H0.
  assert (Hn : nat_of_ascii c = 48%nat).
  { revert H0. generalize (nat_of_ascii c). intros n. lia. }
  apply Ascii.eqb_neq in Hz. apply Hz.
  rewrite <- (ascii_nat_embedding c), Hn. reflexivity.
Qed.

Lemma parse_day_range (tok : list ascii) (d : Z) :
  parse_day tok = Some d -> (1 <= d <= 31)%Z.
Proof.
  unfold parse_day. destruct tok as [|a [|b [|c tok]]]; try discriminate.
  - destruct (is_digit a) eqn:Ha; [|discriminate].
    destruct (Ascii.eqb a "0") eqn:Hz; [discriminate|]. simpl.
    intros H. injection H as <-.
    pose proof (is_digit_val a Ha). pose proof (digit_val_zero a Ha Hz). lia.
  - destruct (Ascii.eqb a " ").
    + destruct (is_digit b) eqn:Hb; [|discriminate].
      destruct (Ascii.eqb b "0") eqn:Hz; [discriminate|]. simpl.
      intros H. injection H as <-.
      pose proof (is_digit_val b Hb). pose proof (digit_val_zero b Hb Hz). lia.
    + destruct (is_digit a && is_digit b); [|discriminate].
      cbv zeta. set (v := (10 * digit_val a + digit_val b)%Z).
      destruct ((1 <=? v)%Z && (v <=? 31)%Z) eqn:Hr; [|discriminate].
      intros H. injection H as <-.
      apply andb_true_iff in Hr as [H1 H2].
      apply Z.leb_le in H1. apply Z.leb_le in H2. lia.
Qed.

Lemma parse_month_range (tok : list ascii) (m : Z) :
  parse_month tok = Some m -> (1 <= m <= 12)%Z.
Proof.
  unfold parse_month. generalize (lower_all tok). intros l.
  repeat (match goal with
          | |- context [match ?x with _ => _ end] => is_var x; destruct x
          end; try discriminate);
    intros H; injection H as <-; lia.
Qed.

Lemma parse_year_range (a b : ascii) (y : Z) :
  parse_year a b = Some y -> (1969 <= y <= 2068)%Z.
Proof.
  unfold parse_year. destruct (is_digit a && is_digit b) eqn:Hab; [|discriminate].
  apply andb_true_iff in Hab as [Ha Hb]. cbv zeta.
  pose proof (is_digit_val a Ha). pose proof (is_digit_val b Hb).
  set (v := (10 * digit_val a + digit_val b)%Z).
  assert (Hv : (0 <= v <= 99)%Z) by (unfold v; lia).
  intros Hy. apply some_inj in Hy. subst y.
  destruct (v <=? 68)%Z eqn:Hp; [apply Z.leb_le in Hp | apply Z.leb_gt in Hp]; lia.
Qed.

Lemma parse_upto_range (bound : Z) (tok : list ascii) (n : Z) :
  (10 <= bound)%Z -> parse_upto bound tok = Some n -> (0 <= n < bound)%Z.
Proof.
  intros Hb. unfold parse_upto. destruct tok as [|a [|b [|c tok]]]; try discriminate.
  - destruct (is_digit a) eqn:Ha; [|discriminate].
    intros H. injection H as <-. pose proof (is_digit_val a Ha). lia.
  - destruct (is_digit a && is_digit b) eqn:Hab; [|discriminate].
    apply andb_true_iff in Hab as [Ha Hd]. cbv zeta.
    set (v := (10 * digit_val a + digit_val b)%Z).
    destruct (v <? bound)%Z eqn:Hlt; [|discriminate].
    intros H. injection H as <-. apply Z.ltb_lt in Hlt.
    pose proof (is_digit_val a Ha). pose proof (is_digit_val b Hd). lia.
Qed.

Lemma in_zrange (lo x : Z) (n : nat) :
  (lo <= x < lo + Z.of_nat n)%Z -> In x (zrange lo n).
Proof.
  intros H. unfold zrange. apply in_map_iff.
  exists (Z.to_nat (x - lo)). split; [lia|].
  apply in_seq. lia.
Qed.

Lemma civil_roundtrip_checked :
  forallb date_roundtrips two_digit_year_dates = true.
Proof. vm_compute. reflexivity. Qed.

Lemma days_in_month_le_31 (y m : Z) : (days_in_month y m <= 31)%Z.
Proof.
  unfold days_in_month.
  destruct m as [|[[[|[]|]|[[]|[]|]|]|[[|[]|]|[[]|[]|]|]|]|]; try lia;
    destruct (is_leap y); lia.
Qed.

(** Every date a two-digit year can denote survives the conversion to a
    day number and back. *)
Lemma civil_roundtrip (y m d : Z) :
  (1969 <= y <= 2068)%Z -> (1 <= m <= 12)%Z -> (1 <= d <= days_in_month y m)%Z ->
  civil_from_days (days_from_civil y m d) = (y, m, d).
Proof.
  intros Hy Hm Hd.
  pose proof (days_in_month_le_31 y m) as H31.
  assert (Hin : In (y, m, d) two_digit_year_dates).
  { unfold two_digit_year_dates. apply in_flat_map.
    exists y. split; [apply in_zrange; lia|].
    apply in_flat_map. exists m. split; [apply in_zrange; lia|].
    apply in_map. apply in_zrange. lia. }
  pose proof civil_roundtrip_checked as Hall.
  rewrite forallb_forall in Hall. specialize (Hall _ Hin).
  unfold date_roundtrips in Hall.
  assert (Hle : (d <=? days_in_month y m)%Z = true) by (apply Z.leb_le; lia).
  rewrite Hle in Hall. rewrite orb_false_l in Hall.
  destruct (civil_from_days (days_from_civil y m d)) as [[y' m'] d'].
  apply andb_true_iff in Hall as [Hall H3].
  apply andb_true_iff in Hall as [H1 H2].
  apply Z.eqb_eq in H1, H2, H3. now subst.
Qed.

(** *** The accepted texts are ASCII *)

Lemma break_at_spec (sep : ascii) (l tok rest : list ascii) :
  break_at sep l = Some (tok, rest) -> l = (tok ++ sep :: rest)%list.
Proof.
  revert tok rest; induction l as [|c l IH]; intros tok rest; simpl; [discriminate|].
  destruct (Ascii.eqb c sep) eqn:Hc.
  - intros H. injection H as <- <-. apply Ascii.eqb_eq in Hc. now subst.
  - destruct (break_at sep l) as [[tok' rest']|]; [|discriminate].
    intros H. injection H as <- <-. simpl. f_equal. now apply IH.
Qed.

Lemma drop_spaces_spec (l : list ascii) :
  exists sp, l = (sp ++ drop_spaces l)%list /\ Forall (fun c => is_space c = true) sp.
Proof.
  induction l as [|c l [sp [Hl Hsp]]]; simpl.
  - exists []. split; [reflexivity | constructor].
  - destruct (is_space c) eqn:Hc.
    + exists (c :: sp). split; [simpl; now f_equal | now constructor].
    + exists []. split; [reflexivity | constructor].
Qed.

Lemma is_digit_ascii (c : ascii) : is_digit c = true -> (nat_of_ascii c < 128)%nat.
Proof.
  unfold is_digit. rewrite andb_true_iff, !Nat.leb_le.
  generalize (nat_of_ascii c). intros n. lia.
Qed.

Lemma is_space_ascii (c : ascii) : is_space c = true -> (nat_of_ascii c < 128)%nat.
Proof.
  unfold is_space. rewrite orb_true_iff, !andb_true_iff, !Nat.leb_le.
  generalize (nat_of_ascii c). intros n. lia.
Qed.

Lemma lower_ascii (c : ascii) :
  (nat_of_ascii (lower c) < 128)%nat -> (nat_of_ascii c < 128)%nat.
Proof.
  unfold lower.
  destruct ((65 <=? nat_of_ascii c)%nat && (nat_of_ascii c <=? 90)%nat) eqn:Hc;
    [|tauto].
  intros _. apply andb_true_iff in Hc as [_ Hc]. apply Nat.leb_le in Hc.
  revert Hc. generalize (nat_of_ascii c). intros n. lia.
Qed.

Lemma lower_all_ascii (tok : list ascii) :
  ascii_text (lower_all tok) -> ascii_text tok.
Proof.
  unfold ascii_text. induction tok as [|c tok IH]; simpl; intros H; [constructor|].
  inversion H as [|? ? Hc Htl]; subst.
  constructor; [now apply lower_ascii | now apply IH].
Qed.

Lemma parse_day_ascii (tok : list ascii) (d : Z) :
  parse_day tok = Some d -> ascii_text tok.
Proof.
  unfold parse_day, ascii_text. destruct tok as [|a [|b [|c tok]]]; try discriminate.
  - destruct (is_digit a) eqn:Ha; [|discriminate]. intros _.
    apply Forall_cons; [now apply is_digit_ascii | apply Forall_nil].
  - destruct (Ascii.eqb a " ") eqn:Hsp.
    + apply Ascii.eqb_eq in Hsp. subst a.
      destruct (is_digit b) eqn:Hb; [|discriminate]. intros _.
      apply Forall_cons; [apply Nat.ltb_lt; reflexivity|].
      apply Forall_cons; [now apply is_digit_ascii | apply Forall_nil].
    + destruct (is_digit a) eqn:Ha; [|discriminate].
      destruct (is_digit b) eqn:Hb; [|discriminate]. intros _.
      apply Forall_cons; [now apply is_digit_ascii|].
      apply Forall_cons; [now apply is_digit_ascii | apply Forall_nil].
Qed.

Lemma parse_month_ascii (tok : list ascii) (m : Z) :
  parse_month tok = Some m -> ascii_text tok.
Proof.
  intros H. apply lower_all_ascii. revert H.
  unfold parse_month. generalize (lower_all tok). intros l.
  repeat (match goal with
          | |- context [match ?x with _ => _ end] => is_var x; destruct x
          end; try discriminate);
    intros _; unfold ascii_text;
    repeat (apply Forall_cons; [apply Nat.ltb_lt; reflexivity|]); apply Forall_nil.
Qed.

Lemma parse_year_ascii (a b : ascii) (y : Z) :
  parse_year a b = Some y -> ascii_text [a; b].
Proof.
  unfold parse_year, ascii_text.
  destruct (is_digit a && is_digit b) eqn:Hab; [|discriminate].
  apply andb_true_iff in Hab as [Ha Hb]. intros _.
  apply Forall_cons; [now apply is_digit_ascii|].
  apply Forall_cons; [now apply is_digit_ascii | apply Forall_nil].
Qed.

Lemma parse_upto_ascii (bound : Z) (tok : list ascii) (n : Z) :
  parse_upto bound tok = Some n -> ascii_text tok.
Proof.
  unfold parse_upto, ascii_text. destruct tok as [|a [|b [|c tok]]]; try discriminate.
  - destruct (is_digit a) eqn:Ha; [|discriminate]. intros _.
    apply Forall_cons; [now apply is_digit_ascii | apply Forall_nil].
  - destruct (is_digit a && is_digit b) eqn:Hab; [|discriminate].
    apply andb_true_iff in Hab as [Ha Hb]. intros _.
    apply Forall_cons; [now apply is_digit_ascii|].
    apply Forall_cons; [now apply is_digit_ascii | apply Forall_nil].
Qed.

(** Every text the embedded format accepts is made of one-byte
    characters. *)
Lemma strptime_ascii (s : string) (t : Z) :
  strptime s = Some t -> ascii_text (list_ascii_of_string s).
Proof.
  unfold strptime. intros H.
  destruct (break_at "/" (list_ascii_of_string s)) as [[dtok r1]|] eqn:Hb1;
    [|discriminate].
  destruct (break_at "/" r1) as [[mtok r2]|] eqn:Hb2; [|discriminate].
  destruct r2 as [|y1 [|y2 [|sp r3]]]; try discriminate.
  destruct (is_space sp) eqn:Hsp; [|discriminate]. simpl negb in H. cbv iota in H.
  destruct (break_at ":" (drop_spaces r3)) as [[htok mintok]|] eqn:Hb3; [|discriminate].
  destruct (parse_day dtok) as [d|] eqn:Hd; [|discriminate].
  destruct (parse_month mtok) as [m|] eqn:Hm; [|discriminate].
  destruct (parse_year y1 y2) as [y|] eqn:Hy; [|discriminate].
  destruct (parse_upto 24 htok) as [h|] eqn:Hh; [|discriminate].
  destruct (parse_upto 60 mintok) as [mi|] eqn:Hmi; [|discriminate].
  clear H.
  apply break_at_spec in Hb1, Hb2, Hb3.
  destruct (drop_spaces_spec r3) as [spaces [Hr3 Hspaces]].
  rewrite Hb1, Hb2, Hr3, Hb3. unfold ascii_text.
  apply parse_day_ascii in Hd. apply parse_month_ascii in Hm.
  apply parse_year_ascii in Hy. apply parse_upto_ascii in Hh.
  apply parse_upto_ascii in Hmi. unfold ascii_text in *.
  inversion Hy as [|? ? Hy1 Hy']; subst. inversion Hy' as [|? ? Hy2 _]; subst.
  apply Forall_app. split; [exact Hd|]. apply Forall_cons; [apply Nat.ltb_lt; reflexivity|].
  apply Forall_app. split; [exact Hm|]. apply Forall_cons; [apply Nat.ltb_lt; reflexivity|].
  apply Forall_cons; [exact Hy1|]. apply Forall_cons; [exact Hy2|].
  apply Forall_cons; [now apply is_space_ascii|].
  apply Forall_app. split.
  - eapply Forall_impl; [|exact Hspaces]. intros c. apply is_space_ascii.
  - apply Forall_app. split; [exact Hh|]. apply Forall_cons; [apply Nat.ltb_lt; reflexivity | exact Hmi].
Qed.

(** X14.  For texts of one-byte characters: a text that the date format
    accepts denotes a calendar date between 1969 and 2068 and a whole
    minute of that day; the day the date filter compares is that calendar
    date whatever the time of day, and the month label of the throughput
    chart is its year and month.  The embedded format accepts one-byte
    texts only; texts with other digits or spaces, which the library also
    reads, are outside this statement. *)
Theorem parsed_timestamp_is_civil_minute (s : string) (t : Z) :
  strptime s = Some t ->
  ascii_text (list_ascii_of_string s) /\
  exists y m d h mi,
    (1969 <= y <= 2068)%Z /\ (1 <= m <= 12)%Z /\ (1 <= d <= days_in_month y m)%Z /\
    (0 <= h < 24)%Z /\ (0 <= mi < 60)%Z /\
    t = (days_from_civil y m d * 86400 + h * 3600 + mi * 60)%Z /\
    date_of t = days_from_civil y m d /\
    month_label t = (pad_digits 4 y "" ++ "-" ++ pad_digits 2 m "")%string /\
    (t mod 60 = 0)%Z.
Proof.
  intros H. split; [now apply (strptime_ascii s t)|]. revert H.
  unfold strptime. intros H.
  destruct (break_at "/" (list_ascii_of_string s)) as [[dtok r1]|]; [|discriminate].
  destruct (break_at "/" r1) as [[mtok r2]|]; [|discriminate].
  destruct r2 as [|y1 [|y2 [|sp r3]]]; try discriminate.
  destruct (negb (is_space sp)); [discriminate|].
  destruct (break_at ":" (drop_spaces r3)) as [[htok mintok]|]; [|discriminate].
  destruct (parse_day dtok) as [d|] eqn:Hd; [|discriminate].
  destruct (parse_month mtok) as [m|] eqn:Hm; [|discriminate].
  destruct (parse_year y1 y2) as [y|] eqn:Hy; [|discriminate].
  destruct (parse_upto 24 htok) as [h|] eqn:Hh; [|discriminate].
  destruct (parse_upto 60 mintok) as [mi|] eqn:Hmi; [|discriminate].
  destruct (d <=? days_in_month y m)%Z eqn:Hdim; [|discriminate].
  apply some_inj in H. apply Z.leb_le in Hdim.
  apply parse_day_range in Hd. apply parse_month_range in Hm.
  apply parse_year_range in Hy.
  apply parse_upto_range in Hh; [|lia]. apply parse_upto_range in Hmi; [|lia].
  assert (Hdate : date_of t = days_from_civil y m d).
  { unfold date_of. symmetry.
    apply (Z.div_unique_pos t 86400 _ (h * 3600 + mi * 60)); lia. }
  exists y, m, d, h, mi. repeat split; try lia; try (symmetry; exact H).
  - unfold month_label. rewrite Hdate, civil_roundtrip by lia. reflexivity.
  - subst t.
    replace (days_from_civil y m d * 86400 + h * 3600 + mi * 60)%Z
      with ((days_from_civil y m d * 1440 + h * 60 + mi) * 60)%Z by ring.
    apply Z_mod_mult.
Qed.

Lemma parsed_timestamp_is_civil_minute_witness :
  ascii_text (list_ascii_of_string "11/Feb/26 22:59") /\
  exists y m d h mi,
    (1969 <= y <= 2068)%Z /\ (1 <= m <= 12)%Z /\ (1 <= d <= days_in_month y m)%Z /\
    (0 <= h < 24)%Z /\ (0 <= mi < 60)%Z /\
    (1770850740 = days_from_civil y m d * 86400 + h * 3600 + mi * 60)%Z /\
    date_of 1770850740 = days_from_civil y m d /\
    month_label 1770850740 = (pad_digits 4 y "" ++ "-" ++ pad_digits 2 m "")%string /\
    (1770850740 mod 60 = 0)%Z.
Proof.
  apply (parsed_timestamp_is_civil_minute "11/Feb/26 22:59" 1770850740).
  reflexivity.
Defined.

(** ** The export, read again *)

Lemma break_at_absent (sep : ascii) (l : list ascii) :
  Forall (fun c => c <> sep) l -> break_at sep l = None.
Proof.
  induction 1 as [|c l Hc _ IH]; simpl; [reflexivity|].
  apply Ascii.eqb_neq in Hc. now rewrite Hc, IH.
Qed.

Lemma list_ascii_of_append (s1 s2 : string) :
  list_ascii_of_string (s1 ++ s2) =
  (list_ascii_of_string s1 ++ list_ascii_of_string s2)%list.
Proof. induction s1 as [|c s1 IH]; simpl; [reflexivity | now rewrite IH]. Qed.

Lemma slash_free_append (s1 s2 : string) :
  slash_free s1 -> slash_free s2 -> slash_free (s1 ++ s2).
Proof.
  unfold slash_free. intros H1 H2. rewrite list_ascii_of_append.
  apply Forall_app. now split.
Qed.

Lemma digit_char_not_slash (d : Z) : digit_char d <> "/"%char.
Proof.
  unfold digit_char. intros H.
  pose proof (Z.mod_pos_bound d 10 ltac:(lia)) as Hr.
  assert (Hk : (Z.to_nat (48 + d mod 10) < 256)%nat) by lia.
  apply nat_ascii_embedding in Hk. rewrite H in Hk.
  change (nat_of_ascii "/") with 47%nat in Hk. lia.
Qed.

Lemma pad_digits_slash_free (width : nat) (n : Z) (acc : string) :
  slash_free acc -> slash_free (pad_digits width n acc).
Proof.
  revert n acc; induction width as [|w IH]; intros n acc Hacc; simpl; [exact Hacc|].
  apply IH. constructor; [apply digit_char_not_slash | exact Hacc].
Qed.

Lemma isoformat_slash_free (t : Z) : slash_free (isoformat t).
Proof.
  unfold isoformat. destruct (civil_from_days (date_of t)) as [[y m] d].
  assert (Hnil : slash_free "") by constructor.
  assert (Hsep : forall c, c <> "/"%char -> slash_free (String c "")).
  { intros c Hc. now repeat constructor. }
  repeat (apply slash_free_append);
    try (apply pad_digits_slash_free; exact Hnil);
    apply Hsep; discriminate.
Qed.

(** The text the export writes for a timestamp is never a date in the
    format of the upload. *)
Lemma strptime_isoformat (t : Z) : strptime (isoformat t) = None.
Proof.
  unfold strptime. now rewrite (break_at_absent _ _ (isoformat_slash_free t)).
Qed.

Lemma reread_datetime (x : option Z) :
  to_datetime (read_field (write_datetime x)) = None.
Proof.
  destruct x as [t|]; simpl; [|reflexivity].
  unfold read_field. destruct (existsb _ na_values); [reflexivity|].
  apply strptime_isoformat.
Qed.

(** X15.  The file the download button writes cannot be uploaded again:
    whatever the view, every date column of the re-read table is null, its
    resolved subset is empty, and the run ends in ValueError at the
    date-range widget. *)
Theorem export_cannot_be_uploaded (df_filtered : list row) (picked : list Z)
  (selected_status selected_tipo : list cell) :
  (exists df', load_data (Some (to_csv df_filtered)) = Some (df', []) /\
               List.length df' = List.length df_filtered /\
               forall r, In r df' ->
                 Created (fields r) = None /\ Updated (fields r) = None /\
                 Resolved (fields r) = None) /\
  app (Some (to_csv df_filtered)) picked selected_status selected_tipo =
    raise ValueError.
Proof.
  assert (Hnull : forall i, In i (issues_of (to_csv df_filtered)) ->
            Created i = None /\ Updated i = None /\ Resolved i = None).
  { intros i Hi. unfold issues_of, to_csv in Hi. rewrite map_map in Hi.
    apply in_map_iff in Hi as [r [<- _]]. simpl.
    repeat split; apply reread_datetime. }
  split.
  - rewrite load_data_eq. eexists. split; [|split].
    + f_equal. f_equal.
      replace (filter (fun i => notna (Resolved i)) (issues_of (to_csv df_filtered)))
        with (@nil issue); [reflexivity|].
      symmetry. induction (issues_of (to_csv df_filtered)) as [|i l IH];
        [reflexivity|]. simpl.
      destruct (Hnull i (or_introl eq_refl)) as [_ [_ ->]]. simpl.
      apply IH. intros j Hj. apply Hnull. now right.
    + unfold issues_of, to_csv. now rewrite !length_map.
    + intros r Hr. apply in_map_iff in Hr as [i [<- Hi]]. simpl.
      now apply Hnull.
  - apply app_raises_without_created. intros l Hl.
    unfold to_csv in Hl. apply in_map_iff in Hl as [r [<- _]]. simpl.
    apply reread_datetime.
Qed.

(** ** More on the lead time *)

(** X17.  For a resolved record with both timestamps the lead time has the
    sign of (resolved - created): it is not negative exactly when the
    record was resolved at or after its creation, zero exactly when both
    coincide, and negative, not an error, when the resolved timestamp is
    the earlier one. *)
Theorem lead_time_sign (file : list csv_row) (df : list row)
  (resolved_df : list resolved_row) (r : resolved_row) (c res : Z) :
  load_data (Some file) = Some (df, resolved_df) ->
  In r resolved_df ->
  Created (rfields r) = Some c -> Resolved (rfields r) = Some res ->
  exists q, Lead_Time_Days r = Some q /\
            ((0 <= q)%Q <-> (c <= res)%Z) /\
            (q == 0 <-> res = c) /\
            ((q < 0)%Q <-> (res < c)%Z).
Proof.
  rewrite load_data_eq. intros Hl Hin Hc Hres. injection Hl as _ <-.
  apply in_map_iff in Hin as [i [<- _]]. simpl in Hc, Hres |- *.
  rewrite Hc, Hres. destruct (in_days_value (res - c)) as [q [Hq Hv]].
  exists q. split; [exact Hq|]. rewrite Hv.
  unfold Qle, Qlt, Qeq. simpl. repeat split; lia.
Qed.

Lemma lead_time_sign_witness :
  exists q, Lead_Time_Days (with_lead_time (ingest_row task_row)) = Some q /\
            ((0 <= q)%Q <-> (20499 * 86400 + 29700 <= 20504 * 86400 + 29700)%Z) /\
            (q == 0 <-> (20504 * 86400 + 29700 = 20499 * 86400 + 29700)%Z) /\
            ((q < 0)%Q <-> (20504 * 86400 + 29700 < 20499 * 86400 + 29700)%Z).
Proof.
  apply (lead_time_sign sample_file sample_df sample_resolved_df
           (with_lead_time (ingest_row task_row))).
  - reflexivity.
  - simpl. auto.
  - reflexivity.
  - reflexivity.
Defined.

Lemma in_dropna (col : list (option Q)) (q : Q) :
  In q (dropna col) <-> In (Some q) col.
Proof.
  induction col as [|[x|] col IH]; simpl.
  - tauto.
  - rewrite IH. split; intros [H | H]; auto.
    + left. now subst.
    + left. now injection H.
  - rewrite IH. split; [auto | intros [H | H]; [discriminate | exact H]].
Qed.

Lemma insert_sorted_length (q : Q) (l : list Q) :
  List.length (insert_sorted q l) = S (List.length l).
Proof.
  induction l as [|x l IH]; simpl; [reflexivity|].
  destruct (Qle_bool q x); simpl; [reflexivity | now rewrite IH].
Qed.

Lemma in_insert_sorted (q x : Q) (l : list Q) :
  In x (insert_sorted q l) -> x = q \/ In x l.
Proof.
  induction l as [|y l IH]; simpl.
  - intros [<- | []]. now left.
  - destruct (Qle_bool q y); simpl.
    + intros [<- | H]; [now left | now right].
    + intros [<- | H]; [right; now left|].
      destruct (IH H) as [-> | H']; [now left | right; now right].
Qed.

Lemma sort_values_float_length (l : list Q) :
  List.length (sort_values_float l) = List.length l.
Proof.
  induction l as [|q l IH]; simpl; [reflexivity|].
  now rewrite insert_sorted_length, IH.
Qed.

Lemma in_sort_values_float (x : Q) (l : list Q) :
  In x (sort_values_float l) -> In x l.
Proof.
  induction l as [|q l IH]; simpl; [tauto|].
  intros H. apply in_insert_sorted in H as [-> | H]; [now left | right; now apply IH].
Qed.

Lemma mean_between (x y : Q) :
  (x <= y)%Q -> (x <= (x + y) / 2)%Q /\ ((x + y) / 2 <= y)%Q.
Proof.
  intros H. split.
  - apply Qle_shift_div_l; [reflexivity|].
    setoid_replace (x * 2)%Q with (x + x)%Q by ring.
    now apply Qplus_le_r.
  - apply Qle_shift_div_r; [reflexivity|].
    setoid_replace (y * 2)%Q with (y + y)%Q by ring.
    now apply Qplus_le_l.
Qed.

Lemma median_none (col : list (option Q)) :
  median col = None <-> forall x, In x col -> x = None.
Proof.
  unfold median. pose proof (sort_values_float_length (dropna col)) as Hlen.
  destruct (List.length (sort_values_float (dropna col))) as [|n] eqn:Hn.
  - split; [|reflexivity]. intros _ x Hx. destruct x as [q|]; [|reflexivity].
    apply in_dropna in Hx. destruct (dropna col); [contradiction | discriminate].
  - split.
    + destruct (Nat.even (S n)); discriminate.
    + intros Hall. exfalso.
      destruct (dropna col) as [|q l] eqn:Hd; [discriminate|].
      assert (Hq : In q (dropna col)) by (rewrite Hd; now left).
      apply in_dropna, Hall in Hq. discriminate.
Qed.

Lemma median_between (col : list (option Q)) (m : Q) :
  median col = Some m ->
  exists a b, In (Some a) col /\ In (Some b) col /\ (a <= m)%Q /\ (m <= b)%Q.
Proof.
  unfold median. set (v := sort_values_float (dropna col)).
  assert (Hv : forall i, (i < List.length v)%nat -> In (Some (nth i v 0%Q)) col).
  { intros i Hi. apply in_dropna, in_sort_values_float. now apply nth_In. }
  destruct (List.length v) as [|n] eqn:Hn; [discriminate|].
  assert (Hhalf : (S n / 2 < S n)%nat) by (apply Nat.div_lt; lia).
  destruct (Nat.even (S n)); intros H; apply some_inj in H; subst m.
  - set (x := nth (S n / 2 - 1) v 0%Q). set (y := nth (S n / 2) v 0%Q).
    assert (Hx : In (Some x) col) by (apply Hv; lia).
    assert (Hy : In (Some y) col) by (apply Hv; lia).
    destruct (Qlt_le_dec y x) as [Hlt | Hle].
    + apply Qlt_le_weak in Hlt. destruct (mean_between y x Hlt) as [H1 H2].
      exists y, x. repeat split; try assumption.
      * now rewrite Qplus_comm.
      * now rewrite Qplus_comm.
    + destruct (mean_between x y Hle) as [H1 H2].
      exists x, y. repeat split; assumption.
  - exists (nth (S n / 2) v 0%Q), (nth (S n / 2) v 0%Q).
    repeat split; try (apply Hv; lia); apply Qle_refl.
Qed.

(** X18.  With a resolved subset that is not empty, the headline median is
    NaN exactly when no resolved record has a lead time (none has a
    created timestamp); otherwise it is a number that lies between the
    lead times of two resolved records. *)
Theorem lead_time_median_of_subset (resolved_df : list resolved_row) :
  resolved_df <> [] ->
  (lead_time_median resolved_df = None <->
   forall r, In r resolved_df -> Lead_Time_Days r = None) /\
  (forall m, lead_time_median resolved_df = Some m ->
     exists r1 r2 a b,
       In r1 resolved_df /\ In r2 resolved_df /\
       Lead_Time_Days r1 = Some a /\ Lead_Time_Days r2 = Some b /\
       (a <= m)%Q /\ (m <= b)%Q).
Proof.
  intros Hne. unfold lead_time_median.
  destruct resolved_df as [|r0 rest]; [contradiction|].
  change (0 <? List.length (r0 :: rest))%nat with true. cbv iota.
  split.
  - rewrite median_none. split.
    + intros H r Hr. apply H. now apply (in_map Lead_Time_Days).
    + intros H x Hx. apply in_map_iff in Hx as [r [<- Hr]]. now apply H.
  - intros m Hm. apply median_between in Hm as [a [b [Ha [Hb [H1 H2]]]]].
    apply in_map_iff in Ha as [r1 [Ha Hr1]].
    apply in_map_iff in Hb as [r2 [Hb Hr2]].
    exists r1, r2, a, b. repeat split; assumption.
Qed.

Lemma lead_time_median_of_subset_witness :
  lead_time_median (map with_lead_time [ingest_row iso_row]) = None.
Proof.
  apply (proj1 (lead_time_median_of_subset (map with_lead_time [ingest_row iso_row])
                  ltac:(discriminate))).
  intros r [<- | []]. reflexivity.
Defined.
